(** * The auth service: registration, login, token issuance, key publication

    A shallow embedding of the auth service's [main], [registerHandler],
    [loginHandler], [jwkHandler] and [healthCheckHandler].  Handlers are
    programs over the calls they make to their collaborators (the database
    pool, bcrypt, the uuid generator, the clock, the JWT signer); a world
    answers the calls and the run records them in order. *)

From Stdlib Require Import ZArith Lia Ascii String.
From stdpp Require Import base option list strings gmap.

Local Open Scope Z_scope.
Local Open Scope string_scope.

(** ** Go values shared by the whole service *)

(** A Go call returning [(T, error)]. *)
Inductive result (E A : Type) : Type :=
| Ok (a : A)
| Err (e : E).
Arguments Ok {E A} a.
Arguments Err {E A} e.

(** [uuid.UUID] is 16 bytes; kept as the 128-bit number they spell. *)
Definition UUID : Type := N.

(** ** Strings as the handlers cut them *)

Fixpoint take_str (n : nat) (s : string) : string :=
  match n, s with
  | S n', String c s' => String c (take_str n' s')
  | _, _ => EmptyString
  end.

Fixpoint drop_str (n : nat) (s : string) : string :=
  match n, s with
  | S n', String _ s' => drop_str n' s'
  | _, _ => s
  end.

(** ** Credential Verifier *)

Module Bcrypt.

Definition MinCost : Z := 4.
Definition MaxCost : Z := 31.
Definition DefaultCost : Z := 10.
Definition encodedSaltSize : nat := 22.
(** prefix [$2a$], two cost digits, [$], then the salt *)
Definition minHashSize : nat := 29.

(** The ways a stored credential can fail to be a hash string. *)
Inductive MalformedHash : Type :=
| HashTooShort
| InvalidHashPrefix
| InvalidCost.

(** What [hash] and [verify] can report. *)
Inductive error : Type :=
| HashingFailure
| Malformed (m : MalformedHash)
| ErrMismatchedHashAndPassword.

(** The parts a hash string embeds. *)
Record hashed : Type := mk_hashed {
  cost : Z;
  salt : string;
  hash_digest : string
}.

Definition digit (d : Z) : ascii := ascii_of_nat (48 + Z.to_nat d).

Definition digit_value (c : ascii) : option Z :=
  let n := nat_of_ascii c in
  if ((48 <=? n) && (n <=? 57))%nat then Some (Z.of_nat (n - 48)) else None.

Definition cost_digits (c : Z) : string :=
  String (digit (c / 10)) (String (digit (c mod 10)) EmptyString).

Definition prefix : string := "$2a$".

Definition render (h : hashed) : string :=
  prefix ++ cost_digits (cost h) ++ "$" ++ salt h ++ hash_digest h.

Definition parse (s : string) : result MalformedHash hashed :=
  if (String.length s <? minHashSize)%nat then Err HashTooShort
  else if negb (String.eqb (take_str 4 s) prefix) then Err InvalidHashPrefix
  else
    match drop_str 4 s with
    | String d1 (String d2 (String sep rest)) =>
        if negb (Ascii.eqb sep "$") then Err InvalidCost
        else
          match digit_value d1, digit_value d2 with
          | Some a, Some b =>
              let c := 10 * a + b in
              if ((MinCost <=? c) && (c <=? MaxCost))%Z
              then Ok {| cost := c;
                         salt := take_str encodedSaltSize rest;
                         hash_digest := drop_str encodedSaltSize rest |}
              else Err InvalidCost
          | _, _ => Err InvalidCost
          end
    | _ => Err HashTooShort
    end.


Section Verifier.

(** Modelled from the spec: the one-way, salted, cost-parameterised
    function underneath the Credential Verifier.  The service calls
    golang.org/x/crypto/bcrypt, which is not part of the repository's
    sources; [digest cost salt password] stands for its expensive
    computation. *)
Variable digest : Z -> string -> string -> string.

(** Modelled from the spec: [hash(password) -> hashedCredential], missing
    from the sources (bcrypt's [GenerateFromPassword]).  It produces a
    fixed-format string embedding the cost factor and the salt, and fails
    with [HashingFailure] when the computation cannot complete; here,
    when no salt could be drawn or the cost is out of range. *)
Definition hash (password : string) (c : Z) (fresh_salt : option string)
  : result error string :=
  let c := if (c <? MinCost)%Z then DefaultCost else c in
  if (MaxCost <? c)%Z then Err HashingFailure
  else
    match fresh_salt with
    | None => Err HashingFailure
    | Some st => Ok (render (mk_hashed c st (digest c st password)))
    end.

(** Modelled from the spec: [verify(password, hashedCredential) -> bool],
    missing from the sources (bcrypt's [CompareHashAndPassword]).  It
    returns false, not an error, for a password that does not match, and
    an error only for a structurally malformed credential.  The digest is
    recomputed with the embedded cost and salt and the two renderings are
    compared as a whole. *)
Definition verify (password hashedCredential : string)
  : result error bool :=
  match parse hashedCredential with
  | Err m => Err (Malformed m)
  | Ok h =>
      let other :=
        mk_hashed (cost h) (salt h) (digest (cost h) (salt h) password) in
      Ok (String.eqb (render h) (render other))
  end.

(** The Go call [loginHandler] makes has one result, an error: the
    verifier's false is delivered as a non-nil error value too. *)
Definition CompareHashAndPassword (hashedPassword password : string)
  : option error :=
  match verify password hashedPassword with
  | Ok true => None
  | Ok false => Some ErrMismatchedHashAndPassword
  | Err e => Some e
  end.

End Verifier.

End Bcrypt.

(** ** Errors, JSON values, responses *)

(** One failed binding tag of one struct field. *)
Record FieldError : Type := mk_FieldError {
  Namespace : string;
  Field : string;
  ActualTag : string
}.

(** What [c.ShouldBindJSON] can fail with: the decoder's error or the
    validator's list of failed tags. *)
Inductive BindError : Type :=
| DecodeError (msg : string)
| ValidationErrors (errs : list FieldError).

(** Go's other [error] values as this service meets them; the handlers
    only test them against nil. *)
Inductive error : Type :=
| BcryptError (e : Bcrypt.error)
| ErrNoRows
| OtherError (msg : string).

Definition FieldError_Error (fe : FieldError) : string :=
  "Key: '" ++ Namespace fe ++ "' Error:Field validation for '" ++ Field fe
  ++ "' failed on the '" ++ ActualTag fe ++ "' tag".

Fixpoint join_lines (l : list string) : string :=
  match l with
  | [] => ""
  | [x] => x
  | x :: rest => x ++ String "010" (join_lines rest)
  end.

(** [err.Error()] of a binding error. *)
Definition Error (e : BindError) : string :=
  match e with
  | DecodeError msg => msg
  | ValidationErrors errs => join_lines (map FieldError_Error errs)
  end.

Module rsa.
Record PublicKey : Type := mk_PublicKey { N : Z; E : Z }.
Record PrivateKey : Type := mk_PrivateKey {
  Public : PublicKey;
  D : Z;
  Primes : list Z
}.
#[global] Instance PublicKey_eq_dec : EqDecision PublicKey.
Proof. solve_decision. Defined.
#[global] Instance PrivateKey_eq_dec : EqDecision PrivateKey.
Proof. solve_decision. Defined.
End rsa.

(** Third-party functions the service calls and that have no effect:
    the validator's [email] tag, the rune count behind its [min] tag, and the
    SHA-256 thumbprint behind [jwk.AssignKeyID]. *)
Class Libraries : Type := mk_Libraries {
  is_email : string -> bool;
  RuneCountInString : string -> nat;
  Thumbprint : rsa.PublicKey -> result error string
}.

Module jwk.

(** What [jwk.New] is handed: the service passes [rsaKey.PublicKey]. *)
Inductive RawKey : Type :=
| RawRSAPrivateKey (k : rsa.PrivateKey)
| RawRSAPublicKey (k : rsa.PublicKey).

Inductive Material : Type :=
| RSAPrivate (k : rsa.PrivateKey)
| RSAPublic (k : rsa.PublicKey).

(** A [jwk.Key]: key material and the string attributes set on it. *)
Record Key : Type := mk_Key {
  material : Material;
  attrs : gmap string string
}.

#[global] Instance Material_eq_dec : EqDecision Material.
Proof. solve_decision. Defined.
#[global] Instance Key_eq_dec : EqDecision Key.
Proof. solve_decision. Defined.

Definition New (raw : RawKey) : result error Key :=
  match raw with
  | RawRSAPrivateKey k => Ok (mk_Key (RSAPrivate k) ∅)
  | RawRSAPublicKey k => Ok (mk_Key (RSAPublic k) ∅)
  end.

Definition Key_Set (k : Key) (name value : string) : Key :=
  mk_Key (material k) (<[name := value]> (attrs k)).

(** [KeyID()] is the empty string while no kid was assigned. *)
Definition KeyID (k : Key) : string := default "" (attrs k !! "kid").

Definition public_half (k : Key) : rsa.PublicKey :=
  match material k with
  | RSAPrivate p => rsa.Public p
  | RSAPublic p => p
  end.

Definition has_private_material (k : Key) : bool :=
  match material k with
  | RSAPrivate _ => true
  | RSAPublic _ => false
  end.

(** Sets the kid to the key's thumbprint; the key is left as it is when
    the thumbprint fails. *)
Definition AssignKeyID `{Libraries} (k : Key) : Key * option error :=
  match Thumbprint (public_half k) with
  | Ok h => (Key_Set k "kid" h, None)
  | Err e => (k, Some e)
  end.

(** A [jwk.Set] keeps its keys in insertion order. *)
Definition KeySet : Type := list Key.
Definition NewSet : KeySet := [].
Definition Add (s : KeySet) (k : Key) : KeySet :=
  if decide (k ∈ s) then s else (s ++ [k])%list.

End jwk.

(** The values the service puts into JSON objects, token headers and
    claims. *)
Inductive JValue : Type :=
| JString (s : string)
| JInt (z : Z)
| JStrings (l : list string)
| JUUID (u : UUID).

Module jwt.

Inductive SigningMethod : Type := SigningMethodRS256.

Definition Alg (m : SigningMethod) : string :=
  match m with SigningMethodRS256 => "RS256" end.

Record Token : Type := mk_Token {
  Method : SigningMethod;
  Header : gmap string JValue;
  Claims : gmap string JValue
}.

Definition NewWithClaims (m : SigningMethod) (claims : gmap string JValue)
  : Token :=
  {| Method := m;
     Header := <["typ" := JString "JWT"]> (<["alg" := JString (Alg m)]> ∅);
     Claims := claims |}.

Definition set_header (t : Token) (name : string) (v : JValue) : Token :=
  {| Method := Method t;
     Header := <[name := v]> (Header t);
     Claims := Claims t |}.

End jwt.

Module time.
(** An instant, in nanoseconds since the Unix epoch. *)
Definition Time : Type := Z.
(** A [Duration] is a count of nanoseconds. *)
Definition Duration : Type := Z.
Definition Nanosecond : Duration := 1.
Definition Second : Duration := 1000000000 * Nanosecond.
Definition Minute : Duration := 60 * Second.
Definition Hour : Duration := 60 * Minute.
Definition Add (t : Time) (d : Duration) : Time := t + d.
(** Seconds since the epoch, rounded down. *)
Definition Unix (t : Time) : Z := t / 1000000000.
End time.

Module http.
Definition StatusOK : Z := 200.
Definition StatusCreated : Z := 201.
Definition StatusBadRequest : Z := 400.
Definition StatusUnauthorized : Z := 401.
Definition StatusInternalServerError : Z := 500.
End http.

(** What [c.JSON] is given to render: a [gin.H] or the key set. *)
Inductive JSONBody : Type :=
| GinH (m : gmap string JValue)
| JwkSet (s : jwk.KeySet).

Record Response : Type := JSON {
  status : Z;
  body : JSONBody
}.

(** ** The service's own types *)

Record User : Type := mk_User {
  ID : UUID;
  Username : string;
  Password : string
}.

Record RegisterRequest : Type := mk_RegisterRequest {
  Email : string;
  Password_ : string
}.

Record loginRequest : Type := mk_loginRequest {
  lEmail : string;
  lPassword : string
}.

(** The process-wide variables [main] assigns ([dbPool] is the world). *)
Record Globals : Type := mk_Globals {
  rsaKey : rsa.PrivateKey;
  rsaKeyJWK : jwk.Key;
  jwkKeySet : jwk.KeySet
}.

(** ** Request binding: [binding:"required,email"], [binding:"required,min=8"] *)

Inductive Tag : Type :=
| required
| email
| min (n : nat).

Definition tag_name (t : Tag) : string :=
  match t with
  | required => "required"
  | email => "email"
  | min _ => "min"
  end.

Definition tag_holds `{Libraries} (t : Tag) (v : string) : bool :=
  match t with
  | required => negb (String.eqb v "")
  | email => is_email v
  | min n => (n <=? RuneCountInString v)%nat
  end.

(** Tags are tried in the order written; the first that fails is the one
    reported for the field. *)
Fixpoint first_failed `{Libraries} (tags : list Tag) (v : string)
  : option Tag :=
  match tags with
  | [] => None
  | t :: rest => if tag_holds t v then first_failed rest v else Some t
  end.

Definition validate_field `{Libraries}
  (structName field : string) (tags : list Tag) (v : string)
  : list FieldError :=
  match first_failed tags v with
  | None => []
  | Some t => [mk_FieldError (structName ++ "." ++ field) field (tag_name t)]
  end.

(** Both request structs carry the same two fields and tags. *)
Definition validate `{Libraries} (structName : string) (em pw : string)
  : list FieldError :=
  (validate_field structName "Email" [required; email] em
   ++ validate_field structName "Password" [required; min 8] pw)%list.

(** [c.ShouldBindJSON(&req)] for a [RegisterRequest]: [decoded] is what
    decoding the body into the struct gave (an absent field is the empty
    string), validation follows. *)
Definition ShouldBindJSON_RegisterRequest `{Libraries}
  (decoded : result string RegisterRequest)
  : result BindError RegisterRequest :=
  match decoded with
  | Err msg => Err (DecodeError msg)
  | Ok req =>
      match validate "RegisterRequest" (Email req) (Password_ req) with
      | [] => Ok req
      | errs => Err (ValidationErrors errs)
      end
  end.

Definition ShouldBindJSON_loginRequest `{Libraries}
  (decoded : result string loginRequest)
  : result BindError loginRequest :=
  match decoded with
  | Err msg => Err (DecodeError msg)
  | Ok req =>
      match validate "loginRequest" (lEmail req) (lPassword req) with
      | [] => Ok req
      | errs => Err (ValidationErrors errs)
      end
  end.

(** ** Calls to collaborators, and programs over them *)

Inductive Eff : Type -> Type :=
| pgxpool_Connect : Eff (option error)
| rsa_GenerateKey (bits : Z) : Eff (result error rsa.PrivateKey)
| bcrypt_GenerateFromPassword (password : string) (cost : Z)
    : Eff (result error string)
| bcrypt_CompareHashAndPassword (hashedPassword password : string)
    : Eff (option error)
| uuid_New : Eff UUID
| dbPool_Exec_insert_user (id : UUID) (username password : string)
    : Eff (option error)
| dbPool_QueryRow_select_user (username : string) : Eff (result error User)
| dbPool_Ping : Eff (option string)
| time_Now : Eff time.Time
| token_SignedString (t : jwt.Token) (key : rsa.PrivateKey)
    : Eff (result error string).

Inductive Prog (A : Type) : Type :=
| Ret (a : A)
| Vis {X : Type} (e : Eff X) (k : X -> Prog A).
Arguments Ret {A} a.
Arguments Vis {A X} e k.

Fixpoint bind {A B : Type} (p : Prog A) (f : A -> Prog B) : Prog B :=
  match p with
  | Ret a => f a
  | Vis e k => Vis e (fun x => bind (k x) f)
  end.

Definition call {X : Type} (e : Eff X) : Prog X := Vis e Ret.

#[global] Instance Prog_ret : MRet Prog := @Ret.
#[global] Instance Prog_bind : MBind Prog := fun A B f p => bind p f.

(** One call with the answer it got. *)
Inductive Event : Type :=
| Ev {X : Type} (e : Eff X) (x : X).

(** A world of type [W] answers every call and moves on. *)
Definition Answers (W : Type) : Type := forall X, Eff X -> W -> X * W.

Fixpoint run {W A : Type} (h : Answers W) (p : Prog A) (w : W)
  : A * W * list Event :=
  match p with
  | Ret a => (a, w, [])
  | Vis e k =>
      let '(x, w1) := h _ e w in
      let '(a, w2, tr) := run h (k x) w1 in
      (a, w2, Ev e x :: tr)
  end.

(** ** [main]: lines 50-74 *)

(** Lines 64-72: the public representation and the key set. *)
Definition publish `{Libraries} (key : rsa.PrivateKey) : result error Globals :=
  match jwk.New (jwk.RawRSAPublicKey (rsa.Public key)) with
  | Err e => Err e
  | Ok k =>
      let '(k, _) := jwk.AssignKeyID k in
      let k := jwk.Key_Set k "alg" "RS256" in
      let set := jwk.Add jwk.NewSet k in
      Ok {| rsaKey := key; rsaKeyJWK := k; jwkKeySet := set |}
  end.

(** [main] up to the point where the router starts; [Err] is [log.Fatalf]. *)
Definition main `{Libraries} : Prog (result error Globals) :=
  err ← call pgxpool_Connect;
  match err with
  | Some e => mret (Err e)
  | None =>
      r ← call (rsa_GenerateKey 2048);
      match r with
      | Err e => mret (Err e)
      | Ok key => mret (publish key)
      end
  end.

(** ** The handlers *)

Definition registerHandler `{Libraries} (decoded : result string RegisterRequest)
  : Prog Response :=
  match ShouldBindJSON_RegisterRequest decoded with
  | Err err =>
      mret (JSON http.StatusBadRequest
              (GinH {[ "error" := JString (Error err) ]}))
  | Ok req =>
      r ← call (bcrypt_GenerateFromPassword (Password_ req) Bcrypt.DefaultCost);
      match r with
      | Err _ =>
          mret (JSON http.StatusInternalServerError
                  (GinH {[ "error" := JString "Failed to hash password" ]}))
      | Ok hashedPassword =>
          id ← call uuid_New;
          let newUser :=
            {| ID := id; Username := Email req; Password := hashedPassword |} in
          err ← call (dbPool_Exec_insert_user
                        (ID newUser) (Username newUser) (Password newUser));
          match err with
          | Some _ =>
              mret (JSON http.StatusInternalServerError
                      (GinH {[ "error" := JString "Failed to register user" ]}))
          | None =>
              mret (JSON http.StatusCreated
                      (GinH (<["id" := JUUID (ID newUser)]>
                               (<["email" := JString (Username newUser)]> ∅))))
          end
      end
  end.

(** Lines 140-146: the token [loginHandler] hands to the signer. *)
Definition newToken (g : Globals) (user : User) (now : time.Time) : jwt.Token :=
  let token :=
    jwt.NewWithClaims jwt.SigningMethodRS256
      (<["sub" := JUUID (ID user)]>
         (<["email" := JString (Username user)]>
            (<["roles" := JStrings ["user"]]>
               (<["exp" := JInt (time.Unix (time.Add now (time.Hour * 24)))]>
                  ∅)))) in
  jwt.set_header token "kid" (JString (jwk.KeyID (rsaKeyJWK g))).

Definition invalid_credentials : Response :=
  JSON http.StatusUnauthorized
    (GinH {[ "error" := JString "Invalid email or password" ]}).

Definition loginHandler `{Libraries} (g : Globals)
  (decoded : result string loginRequest) : Prog Response :=
  match ShouldBindJSON_loginRequest decoded with
  | Err err =>
      mret (JSON http.StatusBadRequest
              (GinH {[ "error" := JString (Error err) ]}))
  | Ok req =>
      r ← call (dbPool_QueryRow_select_user (lEmail req));
      match r with
      | Err _ => mret invalid_credentials
      | Ok user =>
          err ← call (bcrypt_CompareHashAndPassword
                        (Password user) (lPassword req));
          match err with
          | Some _ => mret invalid_credentials
          | None =>
              now ← call time_Now;
              let token := newToken g user now in
              s ← call (token_SignedString token (rsaKey g));
              match s with
              | Err _ =>
                  mret (JSON http.StatusInternalServerError
                          (GinH {[ "error" := JString "Failed to create token" ]}))
              | Ok tokenString =>
                  mret (JSON http.StatusOK
                          (GinH {[ "token" := JString tokenString ]}))
              end
          end
      end
  end.

Definition jwkHandler (g : Globals) : Prog Response :=
  mret (JSON http.StatusOK (JwkSet (jwkKeySet g))).

(** [dbPool_Ping] answers with the text of the error, if there is one. *)
Definition healthCheckHandler : Prog Response :=
  err ← call dbPool_Ping;
  match err with
  | Some msg =>
      mret (JSON http.StatusInternalServerError
              (GinH (<["status" := JString "unhealthy"]>
                       (<["error" := JString msg]> ∅))))
  | None =>
      mret (JSON http.StatusOK (GinH {[ "status" := JString "healthy" ]}))
  end.

(** ** The router and the process after startup *)

Inductive Request : Type :=
| POST_register (decoded : result string RegisterRequest)
| POST_login (decoded : result string loginRequest)
| GET_jwk
| GET_health.

Definition route `{Libraries} (g : Globals) (rq : Request) : Prog Response :=
  match rq with
  | POST_register decoded => registerHandler decoded
  | POST_login decoded => loginHandler g decoded
  | GET_jwk => jwkHandler g
  | GET_health => healthCheckHandler
  end.

(** The requests of a process lifetime, served one after the other from the
    globals [main] left; the responses come back in the same order. *)
Fixpoint serve `{Libraries} {W : Type} (h : Answers W) (g : Globals)
  (reqs : list Request) (w : W) : list Response * W :=
  match reqs with
  | [] => ([], w)
  | rq :: rest =>
      let '(resp, w1, _) := run h (route g rq) w in
      let '(resps, w2) := serve h g rest w1 in
      (resp :: resps, w2)
  end.

(** ** A world to run the service in *)

(** The cryptographic primitives behind bcrypt and RS256 signing. *)
Class Crypto : Type := mk_Crypto {
  bcrypt_digest : Z -> string -> string -> string;
  RS256 : jwt.Token -> rsa.PrivateKey -> result error string
}.

Record World : Type := mk_World {
  users : list User;
  clock : time.Time;
  entropy : list string;
  next_id : UUID;
  keygen : result error rsa.PrivateKey
}.

Definition has_handle (handle : string) (rows : list User) : bool :=
  existsb (fun u => String.eqb (Username u) handle) rows.

Definition findByHandle (handle : string) (rows : list User) : option User :=
  find (fun u => String.eqb (Username u) handle) rows.

(** Modelled from the spec: the credential store, whose schema is not part
    of the sources.  [insert(identity)] is refused for a handle that is
    already registered (uniqueness of the handle is enforced by the store),
    [findByHandle(handle)] gives the identity or reports it absent.  Salts
    are drawn from [entropy], ids are counted up, the clock stands still. *)
Definition answers `{Crypto} : Answers World :=
  fun X e w =>
    match e in Eff X return X * World with
    | pgxpool_Connect => (None, w)
    | rsa_GenerateKey _ => (keygen w, w)
    | bcrypt_GenerateFromPassword password cost =>
        match entropy w with
        | [] => (Err (BcryptError Bcrypt.HashingFailure), w)
        | st :: rest =>
            (match Bcrypt.hash bcrypt_digest password cost (Some st) with
             | Ok s => Ok s
             | Err e => Err (BcryptError e)
             end,
             mk_World (users w) (clock w) rest (next_id w) (keygen w))
        end
    | bcrypt_CompareHashAndPassword hashedPassword password =>
        (BcryptError <$>
           Bcrypt.CompareHashAndPassword bcrypt_digest hashedPassword password,
         w)
    | uuid_New =>
        (next_id w,
         mk_World (users w) (clock w) (entropy w) (N.succ (next_id w))
           (keygen w))
    | dbPool_Exec_insert_user id username password =>
        if has_handle username (users w)
        then (Some (OtherError "duplicate key value"), w)
        else (None,
              mk_World (users w ++ [mk_User id username password])%list
                (clock w) (entropy w) (next_id w) (keygen w))
    | dbPool_QueryRow_select_user username =>
        (match findByHandle username (users w) with
         | Some u => Ok u
         | None => Err ErrNoRows
         end, w)
    | dbPool_Ping => (None, w)
    | time_Now => (clock w, w)
    | token_SignedString t key => (RS256 t key, w)
    end.

(** ** An instance to evaluate the service on *)

Fixpoint has_at (s : string) : bool :=
  match s with
  | EmptyString => false
  | String c rest => Ascii.eqb c "@" || has_at rest
  end.

(** ASCII inputs: a rune is a byte, an address is a string with an [@];
    the thumbprint is a stand-in that reads the modulus. *)
Definition example_libraries : Libraries :=
  {| is_email := has_at;
     RuneCountInString := String.length;
     Thumbprint := fun k =>
       if (rsa.N k <=? 0)%Z then Err (OtherError "invalid key")
       else Ok (String (ascii_of_nat (Z.to_nat (rsa.N k mod 256))) "kid") |}.

Definition example_crypto : Crypto :=
  {| bcrypt_digest := fun c st pw => pw ++ st;
     RS256 := fun t key =>
       if (rsa.D key <=? 0)%Z then Err (OtherError "invalid key")
       else Ok "header.claims.signature" |}.

Definition example_key : rsa.PrivateKey :=
  {| rsa.Public := {| rsa.N := 3233; rsa.E := 17 |};
     rsa.D := 2753;
     rsa.Primes := [61; 53] |}.

Definition example_salt : string := "abcdefghijklmnopqrstuv".
Definition other_salt : string := "ABCDEFGHIJKLMNOPQRSTUV".

Definition example_world : World :=
  {| users := [];
     clock := 1700000000123456789;
     entropy := [example_salt; other_salt];
     next_id := 7%N;
     keygen := Ok example_key |}.

(** The key [main] publishes for [key]: lines 64-69. *)
Definition published_key `{Libraries} (key : rsa.PrivateKey) : jwk.Key :=
  jwk.Key_Set
    (jwk.AssignKeyID (jwk.mk_Key (jwk.RSAPublic (rsa.Public key)) ∅)).1
    "alg" "RS256".

(** The 400 response both handlers give to a body that does not bind. *)
Definition bad_request (err : BindError) : Response :=
  JSON http.StatusBadRequest (GinH {[ "error" := JString (Error err) ]}).

(** The field errors validation of a request struct can report: each names a
    field and a tag, never a value. *)
Definition field_errors (structName : string) : list FieldError :=
  [ mk_FieldError (structName ++ ".Email") "Email" "required";
    mk_FieldError (structName ++ ".Email") "Email" "email";
    mk_FieldError (structName ++ ".Password") "Password" "required";
    mk_FieldError (structName ++ ".Password") "Password" "min" ].

Definition example_globals : Globals :=
  {| rsaKey := example_key;
     rsaKeyJWK := @published_key example_libraries example_key;
     jwkKeySet := [@published_key example_libraries example_key] |}.

(** The identity of the scenario: registered with [longpassword1]. *)
Definition example_user : User :=
  {| ID := 7%N;
     Username := "a@example.com";
     Password :=
       Bcrypt.render
         (Bcrypt.mk_hashed Bcrypt.DefaultCost example_salt
            ("longpassword1" ++ example_salt)) |}.

Definition registered_world : World :=
  {| users := [example_user];
     clock := 1700000000123456789;
     entropy := [other_salt];
     next_id := 8%N;
     keygen := Ok example_key |}.


Definition example_login : result string loginRequest :=
  Ok (mk_loginRequest "a@example.com" "longpassword1").

Definition example_register : result string RegisterRequest :=
  Ok (mk_RegisterRequest "a@example.com" "longpassword1").

(** * The post service and the search service *)

(** ** Procedures over any family of calls *)

Inductive Proc (E : Type -> Type) (A : Type) : Type :=
| Return (a : A)
| Call {X : Type} (e : E X) (k : X -> Proc E A).
Arguments Return {E A} a.
Arguments Call {E A X} e k.

Fixpoint Proc_bind {E : Type -> Type} {A B : Type}
  (p : Proc E A) (f : A -> Proc E B) : Proc E B :=
  match p with
  | Return a => f a
  | Call e k => Call e (fun x => Proc_bind (k x) f)
  end.

Definition perform {E : Type -> Type} {X : Type} (e : E X) : Proc E X :=
  Call e Return.

#[global] Instance Proc_ret {E : Type -> Type} : MRet (Proc E) :=
  fun A a => Return a.
#[global] Instance Proc_mbind {E : Type -> Type} : MBind (Proc E) :=
  fun A B f p => Proc_bind p f.

(** One call of the family [E] with the answer it got. *)
Inductive Occurrence (E : Type -> Type) : Type :=
| Occ {X : Type} (e : E X) (x : X).
Arguments Occ {E X} e x.

Fixpoint exec {E : Type -> Type} {W A : Type}
  (h : forall X, E X -> W -> X * W) (p : Proc E A) (w : W)
  : A * W * list (Occurrence E) :=
  match p with
  | Return a => (a, w, [])
  | Call e k =>
      let '(x, w1) := h _ e w in
      let '(a, w2, tr) := exec h (k x) w1 in
      (a, w2, Occ e x :: tr)
  end.

(** ** The post service *)

Module post.

Record Post : Type := mk_Post {
  ID : UUID;
  UserID : UUID;
  Title : string;
  Content : string
}.

Record CreatePostRequest : Type := mk_CreatePostRequest {
  rTitle : string;
  rContent : string
}.

Record PostEvent : Type := mk_PostEvent {
  eID : string;
  eTitle : string;
  eContent : string
}.

(** Third-party functions without effect: [uuid.Parse], [UUID.String] and
    [json.Marshal] of a [PostEvent]. *)
Class Codec : Type := mk_Codec {
  uuid_Parse : string -> result error UUID;
  uuid_String : UUID -> string;
  json_Marshal : PostEvent -> result error string
}.

(** What a log line is given after its format. *)
Inductive LogArg : Type :=
| APost (p : Post)
| AEvent (e : PostEvent)
| AError (e : error).

Inductive Eff : Type -> Type :=
| os_Getenv (name : string) : Eff string
| pgxpool_Connect (url : string) : Eff (option error)
| nats_Connect (url : string) : Eff (option error)
| uuid_New : Eff UUID
| dbPool_Exec_insert_post (id user_id : UUID) (title content : string)
    : Eff (option error)
| nc_Publish (subject data : string) : Eff (option error)
| log_Printf (format : string) (args : list LogArg) : Eff unit
| log_Println (msg : string) : Eff unit.

(** What [c.JSON] is given: a [gin.H] or the post itself. *)
Inductive Body : Type :=
| GinH (m : gmap string JValue)
| ThePost (p : Post).

Record Response : Type := JSON {
  status : Z;
  body : Body
}.

Definition validate `{Libraries} (title content : string) : list FieldError :=
  (validate_field "CreatePostRequest" "Title" [required] title
   ++ validate_field "CreatePostRequest" "Content" [required] content)%list.

Definition ShouldBindJSON `{Libraries}
  (decoded : result string CreatePostRequest)
  : result BindError CreatePostRequest :=
  match decoded with
  | Err msg => Err (DecodeError msg)
  | Ok req =>
      match validate (rTitle req) (rContent req) with
      | [] => Ok req
      | errs => Err (ValidationErrors errs)
      end
  end.

(** [createPostHandler]; [sub] is [c.GetHeader("X-Krakend-Sub")], the empty
    string when the header is absent. *)
Definition createPostHandler `{Libraries} `{Codec}
  (decoded : result string CreatePostRequest) (sub : string)
  : Proc Eff Response :=
  match ShouldBindJSON decoded with
  | Err err =>
      mret (JSON http.StatusBadRequest
              (GinH {[ "error" := JString (Error err) ]}))
  | Ok req =>
      let userIDstr := sub in
      match uuid_Parse userIDstr with
      | Err _ =>
          mret (JSON http.StatusBadRequest
                  (GinH {[ "error" := JString "Invalid user ID" ]}))
      | Ok userID =>
          id ← perform uuid_New;
          let newPost :=
            {| ID := id; UserID := userID;
               Title := rTitle req; Content := rContent req |} in
          err ← perform (dbPool_Exec_insert_post (ID newPost) (UserID newPost)
                           (Title newPost) (Content newPost));
          match err with
          | Some _ =>
              mret (JSON http.StatusInternalServerError
                      (GinH {[ "error" := JString "Failed to create post" ]}))
          | None =>
              _ ← perform (log_Printf "Post created: %v" [APost newPost]);
              let event :=
                {| eID := uuid_String (ID newPost);
                   eTitle := Title newPost;
                   eContent := Content newPost |} in
              match json_Marshal event with
              | Err _ =>
                  mret (JSON http.StatusInternalServerError
                          (GinH {[ "error" := JString "Failed to marshal event" ]}))
              | Ok eventBytes =>
                  err ← perform (nc_Publish "post.updated" eventBytes);
                  _ ← match err with
                      | Some e =>
                          perform (log_Printf "Failed to publish event: %v"
                                     [AError e])
                      | None => mret tt
                      end;
                  _ ← perform (log_Printf "Post created event published: %v"
                                 [AEvent event]);
                  mret (JSON http.StatusCreated (ThePost newPost))
              end
          end
      end
  end.

(** [main] up to [r.Run]: [Err] is [log.Fatal]/[log.Fatalf], [Ok] means the
    router is started. *)
Definition main : Proc Eff (result string unit) :=
  DATABASE_URL ← perform (os_Getenv "DATABASE_URL");
  if String.eqb DATABASE_URL "" then
    mret (Err "DATABASE_URL environment variable is not set")
  else
    url ← perform (os_Getenv "DATABASE_URL");
    err ← perform (pgxpool_Connect url);
    match err with
    | Some _ => mret (Err "Unable to connect to database")
    | None =>
        _ ← perform (log_Println "Connected to database");
        natsURL ← perform (os_Getenv "NATS_URL");
        if String.eqb natsURL "" then
          mret (Err "NATS_URL environment variable is not set")
        else
          err ← perform (nats_Connect natsURL);
          match err with
          | Some _ => mret (Err "Unable to connect to NATS")
          | None =>
              _ ← perform (log_Println "Connected to NATS");
              mret (Ok tt)
          end
    end.

(** An instance to evaluate the handler on: the table is a list of posts,
    ids are counted up, the message broker refuses every publish. *)
Definition example_codec : Codec :=
  {| uuid_Parse := fun s =>
       if String.eqb s "" then Err (OtherError "invalid UUID length: 0")
       else Ok (N.of_nat (String.length s));
     uuid_String := fun u => "post-id";
     json_Marshal := fun e => Ok (eTitle e ++ ":" ++ eContent e) |}.

Definition example_answers
  : forall X, Eff X -> list Post -> X * list Post :=
  fun X e table =>
    match e in Eff X return X * list Post with
    | os_Getenv name =>
        (if String.eqb name "DATABASE_URL" then "postgres://db"
         else "nats://nats:4222", table)
    | pgxpool_Connect _ => (None, table)
    | nats_Connect _ => (None, table)
    | uuid_New => (N.of_nat (length table), table)
    | dbPool_Exec_insert_post id user_id title content =>
        (None, (table ++ [mk_Post id user_id title content])%list)
    | nc_Publish _ _ => (Some (OtherError "nats: connection closed"), table)
    | log_Printf _ _ => (tt, table)
    | log_Println _ => (tt, table)
    end.

Definition example_request : result string CreatePostRequest :=
  Ok (mk_CreatePostRequest "Hello" "First post").

End post.

(** ** The search service *)

Module search.

Record PostEvent : Type := mk_PostEvent {
  ID : UUID;
  Title : string;
  Content : string
}.

(** [json.Unmarshal] of a message into a [PostEvent]. *)
Class Codec : Type := mk_Codec {
  json_Unmarshal : string -> result error PostEvent
}.

(** The three statements of [setupSchema]. *)
Inductive Statement : Type :=
| CreateTable
| CreateIndex
| CreateTrigger.

Inductive LogArg : Type :=
| AUUID (u : UUID)
| AError (e : error).

(** [dbpool_Query_search] answers with what iterating the rows gives: one
    entry for each row [rows.Next] presents, holding the outcome of its
    [Scan]. *)
Inductive Eff : Type -> Type :=
| os_Getenv (name : string) : Eff string
| pgxpool_Connect (url : string) : Eff (option error)
| nats_Connect (url : string) : Eff (option error)
| nc_Subscribe (subject : string) : Eff unit
| dbpool_Exec_schema (s : Statement) : Eff (option error)
| dbpool_Exec_upsert (post_id : UUID) (content : string) : Eff (option error)
| dbpool_Query_search (query : string)
    : Eff (result error (list (result error string)))
| log_Printf (format : string) (args : list LogArg) : Eff unit
| log_Println (msg : string) : Eff unit.

(** The values of the handler's [gin.H]: a string, or a [[]string] that may
    be nil. *)
Inductive Value : Type :=
| VString (s : string)
| VStrings (l : option (list string)).

Record Response : Type := JSON {
  status : Z;
  body : gmap string Value
}.

(** [append(postIDs, id)] on a slice that may be nil. *)
Definition append (postIDs : option (list string)) (id : string)
  : option (list string) :=
  match postIDs with
  | None => Some [id]
  | Some l => Some (l ++ [id])%list
  end.

(** The loop of lines 83-90: the responses written on the way and the ids
    collected. *)
Fixpoint scan (rows : list (result error string))
  (postIDs : option (list string))
  : list Response * option (list string) :=
  match rows with
  | [] => ([], postIDs)
  | Ok id :: rest => scan rest (append postIDs id)
  | Err _ :: rest =>
      let '(written, ids) := scan rest postIDs in
      (JSON 500 {[ "error" := VString "failed to scan result" ]} :: written,
       ids)
  end.

(** The handler of [GET /search]; [query] is [c.Query("q")].  The result is
    every [c.JSON] the handler makes, in order. *)
Definition searchHandler (query : string) : Proc Eff (list Response) :=
  if String.eqb query "" then
    mret [JSON 400 {[ "error" := VString "Query parameter 'q' is required" ]}]
  else
    r ← perform (dbpool_Query_search query);
    match r with
    | Err _ => mret [JSON 500 {[ "error" := VString "search failed" ]}]
    | Ok rows =>
        let '(written, postIDs) := scan rows None in
        mret (written ++ [JSON 200 {[ "post_ids" := VStrings postIDs ]}])%list
    end.

Definition upsertPost (post : PostEvent) : Proc Eff unit :=
  err ← perform (dbpool_Exec_upsert (ID post) (Content post));
  match err with
  | Some e =>
      perform (log_Printf "Failed to upsert post %s: %v"
                 [AUUID (ID post); AError e])
  | None =>
      perform (log_Printf "Successfully indexed post %s" [AUUID (ID post)])
  end.

(** The subscriber of [post.updated]; [data] is [msg.Data]. *)
Definition onPostUpdated `{Codec} (data : string) : Proc Eff unit :=
  match json_Unmarshal data with
  | Err e => perform (log_Printf "Invalid message format: %v" [AError e])
  | Ok post => upsertPost post
  end.

(** [setupSchema]: [Err] is [log.Fatalf]. *)
Definition setupSchema : Proc Eff (result string unit) :=
  err ← perform (dbpool_Exec_schema CreateTable);
  match err with
  | Some _ => mret (Err "Failed to create table")
  | None =>
      err ← perform (dbpool_Exec_schema CreateIndex);
      match err with
      | Some _ => mret (Err "Failed to create GIN index")
      | None =>
          err ← perform (dbpool_Exec_schema CreateTrigger);
          match err with
          | Some _ => mret (Err "Failed to create trigger")
          | None =>
              _ ← perform (log_Println "Schema and GIN index are ready.");
              mret (Ok tt)
          end
      end
  end.

(** [main] up to [r.Run]. *)
Definition main : Proc Eff (result string unit) :=
  databaseURL ← perform (os_Getenv "DATABASE_URL");
  if String.eqb databaseURL "" then
    mret (Err "DATABASE_URL environment variable is required")
  else
    err ← perform (pgxpool_Connect databaseURL);
    match err with
    | Some _ => mret (Err "Unable to connect to database")
    | None =>
        r ← setupSchema;
        match r with
        | Err msg => mret (Err msg)
        | Ok _ =>
            natsURL ← perform (os_Getenv "NATS_URL");
            let natsURL :=
              if String.eqb natsURL "" then "nats://localhost:4222"
              else natsURL in
            err ← perform (nats_Connect natsURL);
            match err with
            | Some _ => mret (Err "Unable to connect to NATS")
            | None =>
                _ ← perform (nc_Subscribe "post.updated");
                mret (Ok tt)
            end
        end
    end.

(** The table [posts_search_index] as its primary key makes it: a map from
    [post_id] to [content], where an upsert overwrites.  The other calls are
    answered as an instance to evaluate on: only [DATABASE_URL] is set, every
    statement succeeds, a search presents three rows of which the second
    does not scan. *)
Definition indexing
  : forall X, Eff X -> gmap UUID string -> X * gmap UUID string :=
  fun X e idx =>
    match e in Eff X return X * gmap UUID string with
    | os_Getenv name =>
        (if String.eqb name "DATABASE_URL" then "postgres://db" else "", idx)
    | pgxpool_Connect _ => (None, idx)
    | nats_Connect _ => (None, idx)
    | nc_Subscribe _ => (tt, idx)
    | dbpool_Exec_schema _ => (None, idx)
    | dbpool_Exec_upsert post_id content => (None, <[post_id := content]> idx)
    | dbpool_Query_search _ =>
        (Ok [Ok "p1"; Err (OtherError "cannot scan"); Ok "p2"], idx)
    | log_Printf _ _ => (tt, idx)
    | log_Println _ => (tt, idx)
    end.

(** The scans of [rows] that succeeded, in order, and how many failed. *)
Definition scanned (rows : list (result error string)) : list string :=
  omap (fun r => match r with Ok id => Some id | Err _ => None end) rows.

Fixpoint failed (rows : list (result error string)) : nat :=
  match rows with
  | [] => 0
  | Ok _ :: rest => failed rest
  | Err _ :: rest => S (failed rest)
  end.

(** The events the messages [msgs] decode to, in order; a message that does
    not decode gives none. *)
Definition decoded `{Codec} (msgs : list string) : list PostEvent :=
  omap (fun data => match json_Unmarshal data with
                    | Ok post => Some post
                    | Err _ => None
                    end) msgs.

(** The index after the subscriber handled [msgs] one after the other. *)
Fixpoint deliver `{Codec} (msgs : list string) (index : gmap UUID string)
  : gmap UUID string :=
  match msgs with
  | [] => index
  | data :: rest => deliver rest (exec indexing (onPostUpdated data) index).1.2
  end.

Definition example_codec : Codec :=
  {| json_Unmarshal := fun data =>
       if String.eqb data "" then Err (OtherError "unexpected end of JSON input")
       else Ok (mk_PostEvent (N.of_nat (String.length data)) "title" data) |}.

End search.

(** * Properties *)

(** ** Strings *)

Lemma app_String (c : ascii) (a b : string) :
  String c a ++ b = String c (a ++ b).
Proof. reflexivity. Qed.

Lemma app_empty (b : string) : "" ++ b = b.
Proof. reflexivity. Qed.

Lemma take_str_app (a b : string) :
  take_str (String.length a) (a ++ b) = a.
Proof. induction a as [|c a IH]; simpl; [by destruct b | by rewrite IH]. Qed.

Lemma drop_str_app (a b : string) :
  drop_str (String.length a) (a ++ b) = b.
Proof. induction a as [|c a IH]; simpl; [by destruct b | done]. Qed.



Lemma length_app_str (a b : string) :
  String.length (a ++ b) = (String.length a + String.length b)%nat.
Proof. induction a as [|c a IH]; simpl; [done | by rewrite IH]. Qed.

Section BcryptFacts.
Import Bcrypt.

Lemma digit_value_digit (d : Z) :
  0 <= d <= 9 -> digit_value (digit d) = Some d.
Proof.
  intros Hd.
  assert (Hc : d = 0 \/ d = 1 \/ d = 2 \/ d = 3 \/ d = 4 \/ d = 5 \/ d = 6
               \/ d = 7 \/ d = 8 \/ d = 9) by lia.
  repeat (destruct Hc as [-> | Hc]; [reflexivity|]). by subst.
Qed.


Lemma parse_render (c : Z) (st d : string) :
  MinCost <= c <= MaxCost -> String.length st = encodedSaltSize ->
  parse (render (mk_hashed c st d)) = Ok (mk_hashed c st d).
Proof.
  unfold MinCost, MaxCost. intros Hc Hst.
  unfold parse, render. cbn [cost salt hash_digest].
  assert (Hlen : (String.length (prefix ++ cost_digits c ++ "$" ++ st ++ d)
                  <? minHashSize)%nat = false).
  { apply Nat.ltb_ge. rewrite !length_app_str, Hst.
    unfold prefix, cost_digits, minHashSize, encodedSaltSize.
    simpl String.length. lia. }
  rewrite Hlen.
  change 4%nat with (String.length prefix).
  rewrite take_str_app, drop_str_app, String.eqb_refl.
  unfold cost_digits. rewrite !app_String, !app_empty.
  cbn -[take_str drop_str encodedSaltSize].
  rewrite !digit_value_digit.
  2:{ pose proof (Z.mod_pos_bound c 10). lia. }
  2:{ split; [apply Z.div_pos; lia | apply Z.div_le_upper_bound; lia]. }
  replace (10 * (c / 10) + c mod 10) with c
    by (rewrite (Z.div_mod c 10) at 1; lia).
  unfold MinCost, MaxCost.
  destruct (_ && _) eqn:Hr.
  - rewrite <- Hst, take_str_app, drop_str_app. done.
  - apply andb_false_iff in Hr as [H%Z.leb_gt | H%Z.leb_gt]; lia.
Qed.


Lemma render_inj (c1 c2 : Z) (st1 st2 d1 d2 : string) :
  MinCost <= c1 <= MaxCost -> MinCost <= c2 <= MaxCost ->
  String.length st1 = encodedSaltSize -> String.length st2 = encodedSaltSize ->
  render (mk_hashed c1 st1 d1) = render (mk_hashed c2 st2 d2) ->
  c1 = c2 /\ st1 = st2 /\ d1 = d2.
Proof.
  intros Hc1 Hc2 H1 H2 Heq.
  pose proof (parse_render c1 st1 d1 Hc1 H1) as P1.
  pose proof (parse_render c2 st2 d2 Hc2 H2) as P2.
  rewrite Heq, P2 in P1. by injection P1 as -> -> ->.
Qed.


Variable digest : Z -> string -> string -> string.

Lemma verify_render (p : string) (c : Z) (st d : string) :
  MinCost <= c <= MaxCost -> String.length st = encodedSaltSize ->
  verify digest p (render (mk_hashed c st d))
  = Ok (String.eqb d (digest c st p)).
Proof.
  intros Hc Hst. unfold verify. rewrite parse_render by done.
  cbn [cost salt hash_digest]. f_equal.
  destruct (String.eqb d (digest c st p)) eqn:Hd.
  - apply String.eqb_eq in Hd as <-. apply String.eqb_refl.
  - apply String.eqb_neq in Hd. apply String.eqb_neq. intros Heq.
    apply render_inj in Heq as (_ & _ & ?); done.
Qed.

Lemma hash_DefaultCost (p st : string) :
  hash digest p DefaultCost (Some st)
  = Ok (render (mk_hashed DefaultCost st (digest DefaultCost st p))).
Proof. reflexivity. Qed.

(** C4. For every password, the hash produced for it (whatever salt was
    drawn) verifies against that same password. *)
Theorem verify_hash (p st : string) :
  String.length st = encodedSaltSize ->
  exists h, hash digest p DefaultCost (Some st) = Ok h /\
            verify digest p h = Ok true.
Proof.
  intros Hst. eexists. split; [apply hash_DefaultCost|].
  rewrite verify_render; [|unfold MinCost, MaxCost, DefaultCost; lia|done].
  by rewrite String.eqb_refl.
Qed.



End BcryptFacts.

Lemma verify_hash_witness :
  exists h, Bcrypt.hash (@bcrypt_digest example_crypto) "longpassword1"
              Bcrypt.DefaultCost (Some example_salt) = Ok h /\
            Bcrypt.verify (@bcrypt_digest example_crypto) "longpassword1" h
            = Ok true.
Proof.
  apply (verify_hash (@bcrypt_digest example_crypto) "longpassword1"
           example_salt).
  reflexivity.
Defined.





Section Binding.
Context `{Libraries}.

Lemma first_failed_None_required_email (v : string) :
  first_failed [required; email] v = None <->
  v <> "" /\ is_email v = true.
Proof.
  cbn. destruct (String.eqb v "") eqn:Hv; cbn.
  - apply String.eqb_eq in Hv. split; [done|]. by intros [? _].
  - apply String.eqb_neq in Hv. destruct (is_email v); split; try done.
    by intros [_ ?].
Qed.

Lemma first_failed_None_required_min (v : string) :
  first_failed [required; min 8] v = None <->
  v <> "" /\ (8 <= RuneCountInString v)%nat.
Proof.
  cbn -[Nat.leb]. destruct (String.eqb v "") eqn:Hv; cbn -[Nat.leb].
  - apply String.eqb_eq in Hv. split; [done|]. by intros [? _].
  - apply String.eqb_neq in Hv.
    destruct (8 <=? RuneCountInString v)%nat eqn:Hm.
    + apply Nat.leb_le in Hm. split; [by split | done].
    + apply Nat.leb_gt in Hm. split; [done|]. intros [_ ?]. lia.
Qed.

Lemma validate_nil (structName em pw : string) :
  validate structName em pw = [] <->
  (em <> "" /\ is_email em = true) /\
  (pw <> "" /\ (8 <= RuneCountInString pw)%nat).
Proof.
  unfold validate, validate_field.
  rewrite <- first_failed_None_required_email,
          <- first_failed_None_required_min.
  destruct (first_failed [required; email] em),
           (first_failed [required; min 8] pw); cbn; split;
    try done; intros [? ?]; done.
Qed.

Lemma validate_invalid (structName em pw : string) :
  (RuneCountInString pw < 8)%nat \/ is_email em = false ->
  validate structName em pw <> [].
Proof.
  intros Hbad Hnil. apply validate_nil in Hnil as [[_ He] [_ Hp]].
  destruct Hbad; [lia | congruence].
Qed.

Lemma validate_field_errors (structName em pw : string) :
  validate structName em pw ⊆ field_errors structName.
Proof.
  unfold validate, validate_field, field_errors. cbn -[Nat.leb].
  destruct (String.eqb em ""), (is_email em), (String.eqb pw ""),
           (8 <=? RuneCountInString pw)%nat; cbn;
    intros fe; rewrite ?elem_of_cons, ?elem_of_nil; tauto.
Qed.

End Binding.

Section Handlers.
Context `{Libraries}.

Lemma bind_register_Ok (decoded : result string RegisterRequest)
  (req : RegisterRequest) :
  ShouldBindJSON_RegisterRequest decoded = Ok req ->
  decoded = Ok req /\
  validate "RegisterRequest" (Email req) (Password_ req) = [].
Proof.
  unfold ShouldBindJSON_RegisterRequest.
  destruct decoded as [r|msg]; [|done].
  destruct (validate _ _ _) eqn:Hv; [|done]. by intros [= ->].
Qed.

Lemma bind_login_Ok (decoded : result string loginRequest)
  (req : loginRequest) :
  ShouldBindJSON_loginRequest decoded = Ok req ->
  decoded = Ok req /\
  validate "loginRequest" (lEmail req) (lPassword req) = [].
Proof.
  unfold ShouldBindJSON_loginRequest.
  destruct decoded as [r|msg]; [|done].
  destruct (validate _ _ _) eqn:Hv; [|done]. by intros [= ->].
Qed.

(** C6. A registration whose password has fewer than 8 characters, or whose
    email is not an address, is answered 400 with the validation errors,
    and the handler makes no call at all: no hash is computed, no insert is
    attempted. *)
Theorem register_invalid_rejected_before_hash (req : RegisterRequest) :
  (RuneCountInString (Password_ req) < 8)%nat \/ is_email (Email req) = false ->
  exists errs,
    errs <> [] /\
    ShouldBindJSON_RegisterRequest (Ok req) = Err (ValidationErrors errs) /\
    registerHandler (Ok req) = Ret (bad_request (ValidationErrors errs)) /\
    forall (W : Type) (h : Answers W) (w : W),
      run h (registerHandler (Ok req)) w
      = (bad_request (ValidationErrors errs), w, []).
Proof.
  intros Hbad.
  pose proof (validate_invalid "RegisterRequest" _ _ Hbad) as Hne.
  exists (validate "RegisterRequest" (Email req) (Password_ req)).
  split; [done|].
  assert (Hb : ShouldBindJSON_RegisterRequest (Ok req)
               = Err (ValidationErrors
                        (validate "RegisterRequest" (Email req) (Password_ req)))).
  { unfold ShouldBindJSON_RegisterRequest.
    by destruct (validate _ _ _). }
  assert (Hp : registerHandler (Ok req)
               = Ret (bad_request
                        (ValidationErrors
                           (validate "RegisterRequest" (Email req)
                              (Password_ req))))).
  { unfold registerHandler. by rewrite Hb. }
  split; [done|]. split; [done|].
  intros W h w. by rewrite Hp.
Qed.

(** C10. A login whose password has fewer than 8 characters is answered 400
    with the binding error, a response other than the generic 401, and the
    handler makes no call at all: the credential store is not consulted. *)
Theorem login_short_password_bad_request (g : Globals) (req : loginRequest) :
  (RuneCountInString (lPassword req) < 8)%nat ->
  exists errs,
    errs <> [] /\
    loginHandler g (Ok req) = Ret (bad_request (ValidationErrors errs)) /\
    status (bad_request (ValidationErrors errs)) = http.StatusBadRequest /\
    bad_request (ValidationErrors errs) <> invalid_credentials /\
    forall (W : Type) (h : Answers W) (w : W),
      run h (loginHandler g (Ok req)) w
      = (bad_request (ValidationErrors errs), w, []).
Proof.
  intros Hshort.
  pose proof (validate_invalid "loginRequest" (lEmail req) _ (or_introl Hshort))
    as Hne.
  exists (validate "loginRequest" (lEmail req) (lPassword req)).
  split; [done|].
  assert (Hp : loginHandler g (Ok req)
               = Ret (bad_request
                        (ValidationErrors
                           (validate "loginRequest" (lEmail req)
                              (lPassword req))))).
  { unfold loginHandler, ShouldBindJSON_loginRequest.
    by destruct (validate _ _ _). }
  split; [done|]. split; [done|]. split; [by intros [=]|].
  intros W h w. by rewrite Hp.
Qed.

(** C3. For a login request with a well-formed body, the response when the
    store has no row for the handle and the response when it has one whose
    hash the password does not verify against are the same: 401 with the
    message [Invalid email or password]. *)
Theorem login_rejections_identical (g : Globals) (req : loginRequest)
  (W1 W2 : Type) (h1 : Answers W1) (h2 : Answers W2)
  (w1 w1' : W1) (w2 w2' w2'' : W2) (e1 e2 : error) (user : User) :
  ShouldBindJSON_loginRequest (Ok req) = Ok req ->
  h1 _ (dbPool_QueryRow_select_user (lEmail req)) w1 = (Err e1, w1') ->
  h2 _ (dbPool_QueryRow_select_user (lEmail req)) w2 = (Ok user, w2') ->
  h2 _ (bcrypt_CompareHashAndPassword (Password user) (lPassword req)) w2'
  = (Some e2, w2'') ->
  (run h1 (loginHandler g (Ok req)) w1).1.1
  = (run h2 (loginHandler g (Ok req)) w2).1.1 /\
  (run h1 (loginHandler g (Ok req)) w1).1.1
  = JSON http.StatusUnauthorized
      (GinH {[ "error" := JString "Invalid email or password" ]}).
Proof.
  intros Hb Hq1 Hq2 Hc2.
  unfold loginHandler. rewrite Hb. cbn.
  rewrite Hq1, Hq2. cbn. rewrite Hc2. cbn. done.
Qed.

End Handlers.

Section Issuer.
Context `{Libraries}.

Lemma Unix_Add_24h (now : time.Time) :
  time.Unix (time.Add now (time.Hour * 24)) = time.Unix now + 86400.
Proof.
  unfold time.Unix, time.Add, time.Hour, time.Minute, time.Second,
    time.Nanosecond.
  replace (now + 60 * (60 * (1000000000 * 1)) * 24)
    with (now + 86400 * 1000000000) by lia.
  by rewrite Z.div_add.
Qed.

Lemma publish_Ok (key : rsa.PrivateKey) :
  publish key
  = Ok {| rsaKey := key;
          rsaKeyJWK :=
            jwk.Key_Set
              (jwk.AssignKeyID
                 (jwk.mk_Key (jwk.RSAPublic (rsa.Public key)) ∅)).1
              "alg" "RS256";
          jwkKeySet :=
            [jwk.Key_Set
               (jwk.AssignKeyID
                  (jwk.mk_Key (jwk.RSAPublic (rsa.Public key)) ∅)).1
               "alg" "RS256"] |}.
Proof.
  unfold publish. cbn [jwk.New].
  destruct (jwk.AssignKeyID _) as [k e]. cbn [fst].
  unfold jwk.Add, jwk.NewSet.
  destruct (decide _) as [Hin|_]; [by apply elem_of_nil in Hin|done].
Qed.

Lemma publish_invariant (key : rsa.PrivateKey) (g : Globals) :
  publish key = Ok g ->
  rsaKey g = key /\ jwkKeySet g = [rsaKeyJWK g].
Proof. rewrite publish_Ok. by intros [= <-]. Qed.

(** C1. A token the login handler issues carries exactly the claims
    sub = the identity's id, email = its handle, roles = ["user"] and
    exp = the issuance second + 24 hours; its header kid is the kid of the
    one key of the published key set, and it is signed with the process's
    private key. *)
Theorem login_token_claims (key : rsa.PrivateKey) (g : Globals)
  (decoded : result string loginRequest)
  (W : Type) (h : Answers W) (w w' : W) (resp : Response) (tr : list Event) :
  publish key = Ok g ->
  run h (loginHandler g decoded) w = (resp, w', tr) ->
  status resp = http.StatusOK ->
  exists (req : loginRequest) (user : User) (now : time.Time)
         (tokenString : string) (token : jwt.Token) (k : jwk.Key),
    decoded = Ok req /\
    tr = [ Ev (dbPool_QueryRow_select_user (lEmail req)) (Ok user);
           Ev (bcrypt_CompareHashAndPassword (Password user) (lPassword req))
              None;
           Ev time_Now now;
           Ev (token_SignedString token key) (Ok tokenString) ] /\
    resp = JSON http.StatusOK (GinH {[ "token" := JString tokenString ]}) /\
    jwt.Claims token
    = <["sub" := JUUID (ID user)]>
        (<["email" := JString (Username user)]>
           (<["roles" := JStrings ["user"]]>
              (<["exp" := JInt (time.Unix now + 86400)]> ∅))) /\
    jwkKeySet g = [k] /\
    jwt.Header token !! "kid" = Some (JString (jwk.KeyID k)).
Proof.
  intros Hg Hrun Hst.
  apply publish_invariant in Hg as [Hkey Hset].
  unfold loginHandler in Hrun.
  destruct (ShouldBindJSON_loginRequest decoded) as [req|err] eqn:Hb.
  2:{ cbn in Hrun. injection Hrun as <- _ _. done. }
  apply bind_login_Ok in Hb as [-> _].
  cbn in Hrun.
  destruct (h _ (dbPool_QueryRow_select_user (lEmail req)) w)
    as [[user|e] wq] eqn:Hq; cbn in Hrun.
  2:{ injection Hrun as <- _ _. done. }
  destruct (h _ (bcrypt_CompareHashAndPassword (Password user)
                   (lPassword req)) wq) as [[e|] wc] eqn:Hc; cbn in Hrun.
  { injection Hrun as <- _ _. done. }
  destruct (h _ time_Now wc) as [now wn] eqn:Hn; cbn in Hrun.
  destruct (h _ (token_SignedString (newToken g user now) (rsaKey g)) wn)
    as [[s|e] ws] eqn:Hs; cbn in Hrun.
  2:{ injection Hrun as <- _ _. done. }
  injection Hrun as <- <- <-.
  exists req, user, now, s, (newToken g user now), (rsaKeyJWK g).
  rewrite <- Hkey.
  split; [done|]. split; [done|]. split; [done|]. split; [|split; [done|]].
  - unfold newToken. cbn [jwt.Claims jwt.set_header jwt.NewWithClaims].
    by rewrite Unix_Add_24h.
  - unfold newToken. cbn [jwt.Header jwt.set_header].
    apply lookup_insert_eq.
Qed.

End Issuer.

Section Registration.
Context `{Libraries}.

(** C9. A successful registration answers 201 with a body of exactly two
    entries, the created identity's id and its email handle.  Every response
    of the registration endpoint is one of four: the binding error (the
    decoder's message, or field and tag names of failed validations), one of
    two fixed 500 messages, or that 201 body; none carries the password or
    the computed hash. *)
Theorem register_responses (decoded : result string RegisterRequest)
  (W : Type) (h : Answers W) (w w' : W) (resp : Response) (tr : list Event) :
  run h (registerHandler decoded) w = (resp, w', tr) ->
  (exists err,
      resp = bad_request err /\
      ((exists msg, decoded = Err msg /\ err = DecodeError msg) \/
       (exists errs, err = ValidationErrors errs /\
                     errs ⊆ field_errors "RegisterRequest"))) \/
  resp = JSON http.StatusInternalServerError
           (GinH {[ "error" := JString "Failed to hash password" ]}) \/
  resp = JSON http.StatusInternalServerError
           (GinH {[ "error" := JString "Failed to register user" ]}) \/
  (exists (req : RegisterRequest) (hashedPassword : string) (id : UUID),
      decoded = Ok req /\
      tr = [ Ev (bcrypt_GenerateFromPassword (Password_ req) Bcrypt.DefaultCost)
                (Ok hashedPassword);
             Ev uuid_New id;
             Ev (dbPool_Exec_insert_user id (Email req) hashedPassword) None ] /\
      resp = JSON http.StatusCreated
               (GinH (<["id" := JUUID id]>
                        (<["email" := JString (Email req)]> ∅))) /\
      forall m, body resp = GinH m -> dom m = {[ "id"; "email" ]}).
Proof.
  intros Hrun. unfold registerHandler in Hrun.
  destruct (ShouldBindJSON_RegisterRequest decoded) as [req|err] eqn:Hb.
  2:{ left. cbn in Hrun. injection Hrun as <- _ _. exists err.
      split; [done|].
      unfold ShouldBindJSON_RegisterRequest in Hb.
      destruct decoded as [r|msg].
      - right. destruct (validate _ _ _) eqn:Hv; [done|].
        injection Hb as <-. eexists. split; [done|].
        rewrite <- Hv. apply validate_field_errors.
      - left. injection Hb as <-. by exists msg. }
  apply bind_register_Ok in Hb as [-> _].
  cbn in Hrun.
  destruct (h _ (bcrypt_GenerateFromPassword (Password_ req)
                   Bcrypt.DefaultCost) w) as [[hp|e] wh] eqn:Hh;
    cbn in Hrun.
  2:{ right; left. by injection Hrun as <- _ _. }
  destruct (h _ uuid_New wh) as [id wi] eqn:Hi; cbn in Hrun.
  destruct (h _ (dbPool_Exec_insert_user id (Email req) hp) wi)
    as [[e|] wx] eqn:Hx; cbn in Hrun.
  { right; right; left. by injection Hrun as <- _ _. }
  right; right; right. injection Hrun as <- <- <-.
  exists req, hp, id. split; [done|]. split; [done|]. split; [done|].
  intros m [= <-]. rewrite !dom_insert_L, dom_empty_L. set_solver.
Qed.

End Registration.

Section Publisher.
Context `{Libraries}.

Lemma published_key_material (key : rsa.PrivateKey) :
  jwk.material (published_key key) = jwk.RSAPublic (rsa.Public key).
Proof.
  unfold published_key, jwk.AssignKeyID. cbn.
  by destruct (Thumbprint (rsa.Public key)).
Qed.

Lemma published_key_kid (key : rsa.PrivateKey) :
  jwk.attrs (published_key key) !! "kid"
  = match Thumbprint (rsa.Public key) with
    | Ok kid => Some kid
    | Err _ => None
    end.
Proof.
  unfold published_key, jwk.AssignKeyID, jwk.Key_Set. cbn.
  destruct (Thumbprint (rsa.Public key)); cbn.
  - rewrite lookup_insert_ne by done. apply lookup_insert_eq.
  - rewrite lookup_insert_ne by done. apply lookup_empty.
Qed.

Lemma serve_jwk (g : Globals) (W : Type) (h : Answers W)
  (reqs : list Request) (w : W) (i : nat) :
  reqs !! i = Some GET_jwk ->
  (serve h g reqs w).1 !! i = Some (JSON http.StatusOK (JwkSet (jwkKeySet g))).
Proof.
  revert w i. induction reqs as [|rq rest IH]; intros w i Hi; [done|].
  cbn [serve].
  destruct (run h (route g rq) w) as [[resp w1] tr] eqn:Hrun.
  specialize (IH w1).
  destruct (serve h g rest w1) as [resps w2].
  destruct i as [|i].
  - injection Hi as ->. cbn in Hrun. by injection Hrun as <- _ _.
  - cbn. by apply IH.
Qed.

Lemma serve_length (g : Globals) (W : Type) (h : Answers W)
  (reqs : list Request) (w : W) :
  length (serve h g reqs w).1 = length reqs.
Proof.
  revert w. induction reqs as [|rq rest IH]; intros w; [done|].
  cbn [serve].
  destruct (run h (route g rq) w) as [[resp w1] tr].
  specialize (IH w1). destruct (serve h g rest w1) as [resps w2].
  cbn in *. by rewrite IH.
Qed.

(** C2. From startup on, whatever requests are served and whatever the
    collaborators answer, every fetch of the key set is answered 200 with
    the same document: one entry, holding the public half of the key pair
    generated at startup and the kid derived from it, and no private
    material.  The fetch makes no call and leaves the world as it was. *)
Theorem published_key_set_constant (key : rsa.PrivateKey) (g : Globals) :
  publish key = Ok g ->
  jwkKeySet g = [published_key key] /\
  jwk.material (published_key key) = jwk.RSAPublic (rsa.Public key) /\
  jwk.has_private_material (published_key key) = false /\
  jwk.attrs (published_key key) !! "kid"
  = match Thumbprint (rsa.Public key) with
    | Ok kid => Some kid
    | Err _ => None
    end /\
  (forall (W : Type) (h : Answers W) (w : W),
      run h (jwkHandler g) w
      = (JSON http.StatusOK (JwkSet [published_key key]), w, [])) /\
  forall (W : Type) (h : Answers W) (reqs : list Request) (w : W) (i : nat),
    reqs !! i = Some GET_jwk ->
    (serve h g reqs w).1 !! i
    = Some (JSON http.StatusOK (JwkSet [published_key key])).
Proof.
  rewrite publish_Ok. intros [= <-]. cbn [jwkKeySet].
  split; [done|]. split; [apply published_key_material|].
  split; [unfold jwk.has_private_material;
          by rewrite published_key_material|].
  split; [apply published_key_kid|].
  split; [done|].
  intros W h reqs w i Hi.
  by rewrite (serve_jwk _ W h reqs w i Hi).
Qed.
End Publisher.

Section EndToEnd.
Context `{Libraries} `{Crypto}.

Lemma findByHandle_app_new (rows : list User) (u : User) (handle : string) :
  Username u = handle ->
  has_handle handle rows = false ->
  findByHandle handle (rows ++ [u]) = Some u.
Proof.
  intros <-. unfold has_handle, findByHandle.
  induction rows as [|r rows IH]; cbn.
  - by rewrite String.eqb_refl.
  - destruct (String.eqb (Username r) (Username u)); [done|]. apply IH.
Qed.

(** X4. In the reference world, a registration that succeeds stores a hash
    the same password verifies against, so the login that follows reaches
    the signer and is answered with its token. *)
Lemma registered_password_authenticates (g : Globals) (req : RegisterRequest)
  (w : World) (st : string) (rest : list string) :
  validate "RegisterRequest" (Email req) (Password_ req) = [] ->
  entropy w = st :: rest ->
  String.length st = Bcrypt.encodedSaltSize ->
  has_handle (Email req) (users w) = false ->
  exists (w1 : World) (tr : list Event),
    run answers (registerHandler (Ok req)) w
    = (JSON http.StatusCreated
         (GinH (<["id" := JUUID (next_id w)]>
                  (<["email" := JString (Email req)]> ∅))), w1, tr) /\
    forall tokenString,
      RS256 (newToken g
               (mk_User (next_id w) (Email req)
                  (Bcrypt.render
                     (Bcrypt.mk_hashed Bcrypt.DefaultCost st
                        (bcrypt_digest Bcrypt.DefaultCost st (Password_ req)))))
               (clock w)) (rsaKey g) = Ok tokenString ->
      (run answers
         (loginHandler g (Ok (mk_loginRequest (Email req) (Password_ req))))
         w1).1.1
      = JSON http.StatusOK (GinH {[ "token" := JString tokenString ]}).
Proof.
  intros Hv Hent Hst Hfree.
  do 2 eexists. split.
  - unfold registerHandler, ShouldBindJSON_RegisterRequest. rewrite Hv.
    cbn -[has_handle]. rewrite Hent. cbn -[has_handle]. rewrite Hfree.
    reflexivity.
  - intros s Hs.
    unfold loginHandler, ShouldBindJSON_loginRequest. cbn [lEmail lPassword].
    assert (Hv' : validate "loginRequest" (Email req) (Password_ req) = [])
      by (apply validate_nil; by apply validate_nil in Hv).
    rewrite Hv'.
    cbn -[Bcrypt.CompareHashAndPassword Bcrypt.render newToken findByHandle].
    set (u := mk_User _ _ _).
    rewrite (findByHandle_app_new (users w) u (Email req) eq_refl Hfree).
    cbn -[Bcrypt.CompareHashAndPassword Bcrypt.render newToken].
    unfold Bcrypt.CompareHashAndPassword.
    rewrite verify_render;
      [|unfold Bcrypt.MinCost, Bcrypt.MaxCost, Bcrypt.DefaultCost; lia|done].
    rewrite String.eqb_refl.
    cbn -[Bcrypt.render newToken]. subst u. rewrite Hs. reflexivity.
Qed.

End EndToEnd.

Section Custodian.
Context `{Libraries}.

(** The kid is a function of the public half alone: two key pairs with the
    same public key are published under the same kid. *)
Lemma kid_deterministic (key1 key2 : rsa.PrivateKey) :
  rsa.Public key1 = rsa.Public key2 ->
  published_key key1 = published_key key2.
Proof. unfold published_key. by intros ->. Qed.

(** [main] reaches the router only after one 2048-bit key pair was
    generated, and the globals it leaves are the ones published for it. *)
Lemma main_generates_once (W : Type) (h : Answers W) (w w' : W)
  (g : Globals) (tr : list Event) :
  run h main w = (Ok g, w', tr) ->
  exists key,
    tr = [ Ev pgxpool_Connect None; Ev (rsa_GenerateKey 2048) (Ok key) ] /\
    publish key = Ok g.
Proof.
  unfold main. cbn.
  destruct (h _ pgxpool_Connect w) as [[e|] wc]; cbn; [by intros [=]|].
  destruct (h _ (rsa_GenerateKey 2048) wc) as [[key|e] wk]; cbn;
    [|by intros [=]].
  intros [= Hg <- <-]. by exists key.
Qed.

End Custodian.

(** ** The properties on the example instance *)

Lemma register_invalid_rejected_before_hash_witness :
  (@RuneCountInString example_libraries "short" < 8)%nat /\
  exists errs,
    errs <> [] /\
    @ShouldBindJSON_RegisterRequest example_libraries
      (Ok (mk_RegisterRequest "a@example.com" "short"))
    = Err (ValidationErrors errs) /\
    @registerHandler example_libraries
      (Ok (mk_RegisterRequest "a@example.com" "short"))
    = Ret (bad_request (ValidationErrors errs)) /\
    forall (W : Type) (h : Answers W) (w : W),
      run h (@registerHandler example_libraries
               (Ok (mk_RegisterRequest "a@example.com" "short"))) w
      = (bad_request (ValidationErrors errs), w, []).
Proof.
  assert (Hshort : (@RuneCountInString example_libraries "short" < 8)%nat)
    by (vm_compute; lia).
  split; [exact Hshort|].
  exact (@register_invalid_rejected_before_hash example_libraries
           (mk_RegisterRequest "a@example.com" "short") (or_introl Hshort)).
Defined.

Lemma login_short_password_bad_request_witness :
  (@RuneCountInString example_libraries "short" < 8)%nat /\
  exists errs,
    errs <> [] /\
    @loginHandler example_libraries example_globals
      (Ok (mk_loginRequest "a@example.com" "short"))
    = Ret (bad_request (ValidationErrors errs)) /\
    status (bad_request (ValidationErrors errs)) = http.StatusBadRequest /\
    bad_request (ValidationErrors errs) <> invalid_credentials /\
    forall (W : Type) (h : Answers W) (w : W),
      run h (@loginHandler example_libraries example_globals
               (Ok (mk_loginRequest "a@example.com" "short"))) w
      = (bad_request (ValidationErrors errs), w, []).
Proof.
  assert (Hshort : (@RuneCountInString example_libraries "short" < 8)%nat)
    by (vm_compute; lia).
  split; [exact Hshort|].
  exact (@login_short_password_bad_request example_libraries example_globals
           (mk_loginRequest "a@example.com" "short") Hshort).
Defined.

Lemma login_rejections_identical_witness :
  (run (@answers example_crypto)
     (@loginHandler example_libraries example_globals
        (Ok (mk_loginRequest "a@example.com" "wrongpass"))) example_world).1.1
  = (run (@answers example_crypto)
       (@loginHandler example_libraries example_globals
          (Ok (mk_loginRequest "a@example.com" "wrongpass")))
       registered_world).1.1 /\
  (run (@answers example_crypto)
     (@loginHandler example_libraries example_globals
        (Ok (mk_loginRequest "a@example.com" "wrongpass"))) example_world).1.1
  = JSON http.StatusUnauthorized
      (GinH {[ "error" := JString "Invalid email or password" ]}).
Proof.
  apply (@login_rejections_identical example_libraries example_globals
           (mk_loginRequest "a@example.com" "wrongpass")
           World World (@answers example_crypto) (@answers example_crypto)
           example_world example_world
           registered_world registered_world registered_world
           ErrNoRows (BcryptError Bcrypt.ErrMismatchedHashAndPassword)
           example_user).
  - reflexivity.
  - reflexivity.
  - reflexivity.
  - vm_compute. reflexivity.
Defined.

Lemma login_token_claims_witness :
  exists (req : loginRequest) (user : User) (now : time.Time)
         (tokenString : string) (token : jwt.Token) (k : jwk.Key),
    example_login = Ok req /\
    (run (@answers example_crypto)
       (@loginHandler example_libraries example_globals example_login)
       registered_world).2
    = [ Ev (dbPool_QueryRow_select_user (lEmail req)) (Ok user);
        Ev (bcrypt_CompareHashAndPassword (Password user) (lPassword req))
           None;
        Ev time_Now now;
        Ev (token_SignedString token example_key) (Ok tokenString) ] /\
    (run (@answers example_crypto)
       (@loginHandler example_libraries example_globals example_login)
       registered_world).1.1
    = JSON http.StatusOK (GinH {[ "token" := JString tokenString ]}) /\
    jwt.Claims token
    = <["sub" := JUUID (ID user)]>
        (<["email" := JString (Username user)]>
           (<["roles" := JStrings ["user"]]>
              (<["exp" := JInt (time.Unix now + 86400)]> ∅))) /\
    jwkKeySet example_globals = [k] /\
    jwt.Header token !! "kid" = Some (JString (jwk.KeyID k)).
Proof.
  apply (@login_token_claims example_libraries example_key example_globals
           example_login World (@answers example_crypto) registered_world
           (run (@answers example_crypto)
              (@loginHandler example_libraries example_globals example_login)
              registered_world).1.2).
  - vm_compute. reflexivity.
  - by destruct (run _ _ _) as [[? ?] ?].
  - vm_compute. reflexivity.
Defined.

Lemma published_key_set_constant_witness :
  jwkKeySet example_globals = [@published_key example_libraries example_key] /\
  jwk.material (@published_key example_libraries example_key)
  = jwk.RSAPublic (rsa.Public example_key) /\
  jwk.has_private_material (@published_key example_libraries example_key)
  = false /\
  jwk.attrs (@published_key example_libraries example_key) !! "kid"
  = match @Thumbprint example_libraries (rsa.Public example_key) with
    | Ok kid => Some kid
    | Err _ => None
    end /\
  (forall (W : Type) (h : Answers W) (w : W),
      run h (jwkHandler example_globals) w
      = (JSON http.StatusOK
           (JwkSet [@published_key example_libraries example_key]), w, [])) /\
  forall (W : Type) (h : Answers W) (reqs : list Request) (w : W) (i : nat),
    reqs !! i = Some GET_jwk ->
    (@serve example_libraries W h example_globals reqs w).1 !! i
    = Some (JSON http.StatusOK
              (JwkSet [@published_key example_libraries example_key])).
Proof.
  apply (@published_key_set_constant example_libraries example_key
           example_globals).
  vm_compute. reflexivity.
Defined.

Lemma register_responses_witness :
  exists (req : RegisterRequest) (hashedPassword : string) (id : UUID),
    example_register = Ok req /\
    (run (@answers example_crypto)
       (@registerHandler example_libraries example_register) example_world).2
    = [ Ev (bcrypt_GenerateFromPassword (Password_ req) Bcrypt.DefaultCost)
           (Ok hashedPassword);
        Ev uuid_New id;
        Ev (dbPool_Exec_insert_user id (Email req) hashedPassword) None ] /\
    (run (@answers example_crypto)
       (@registerHandler example_libraries example_register) example_world).1.1
    = JSON http.StatusCreated
        (GinH (<["id" := JUUID id]> (<["email" := JString (Email req)]> ∅))).
Proof.
  destruct (@register_responses example_libraries example_register World
              (@answers example_crypto) example_world
              (run (@answers example_crypto)
                 (@registerHandler example_libraries example_register)
                 example_world).1.2
              (run (@answers example_crypto)
                 (@registerHandler example_libraries example_register)
                 example_world).1.1
              (run (@answers example_crypto)
                 (@registerHandler example_libraries example_register)
                 example_world).2)
    as [(err & Hr & _) | [Hr | [Hr | (req & hp & id & Hd & Htr & Hr & _)]]].
  - by destruct (run _ _ _) as [[? ?] ?].
  - vm_compute in Hr. discriminate Hr.
  - vm_compute in Hr. discriminate Hr.
  - vm_compute in Hr. discriminate Hr.
  - by exists req, hp, id.
Defined.

(** ** More of the auth service *)

Section AuthMore.
Context `{Libraries}.

(** X1. A decoded registration binds exactly when the email is non-empty and
    passes the [email] tag and the password is non-empty and has at least 8
    runes; a login body binds exactly when the same fields would bind as a
    registration. *)
Theorem bind_accepts_exactly (em pw : string) :
  (ShouldBindJSON_RegisterRequest (Ok (mk_RegisterRequest em pw))
   = Ok (mk_RegisterRequest em pw) <->
   (em <> "" /\ is_email em = true) /\
   (pw <> "" /\ (8 <= RuneCountInString pw)%nat)) /\
  (ShouldBindJSON_loginRequest (Ok (mk_loginRequest em pw))
   = Ok (mk_loginRequest em pw) <->
   ShouldBindJSON_RegisterRequest (Ok (mk_RegisterRequest em pw))
   = Ok (mk_RegisterRequest em pw)).
Proof.
  assert (Hr : ShouldBindJSON_RegisterRequest (Ok (mk_RegisterRequest em pw))
               = Ok (mk_RegisterRequest em pw) <->
               validate "RegisterRequest" em pw = []).
  { unfold ShouldBindJSON_RegisterRequest. cbn [Email Password_].
    destruct (validate _ _ _); (split; intros Hx);
      [reflexivity | reflexivity | discriminate Hx | discriminate Hx]. }
  assert (Hl : ShouldBindJSON_loginRequest (Ok (mk_loginRequest em pw))
               = Ok (mk_loginRequest em pw) <->
               validate "loginRequest" em pw = []).
  { unfold ShouldBindJSON_loginRequest. cbn [lEmail lPassword].
    destruct (validate "loginRequest" em pw); (split; intros Hx);
      [reflexivity | reflexivity | discriminate Hx | discriminate Hx]. }
  split.
  - rewrite Hr. apply validate_nil.
  - rewrite Hl, Hr, !validate_nil. done.
Qed.

(** X3. Every run of the login handler is one of five: a 400 with no call;
    a 401 after the store lookup failed (whatever the error); a 401 after the
    lookup succeeded and bcrypt refused; a 500 after the signer failed; or a
    200 with the signer's string.  The signer is reached only after bcrypt
    accepted the stored hash, and is given the startup key. *)
Theorem login_outcomes (g : Globals) (decoded : result string loginRequest)
  (W : Type) (h : Answers W) (w w' : W) (resp : Response) (tr : list Event) :
  run h (loginHandler g decoded) w = (resp, w', tr) ->
  (exists err,
      ShouldBindJSON_loginRequest decoded = Err err /\
      resp = bad_request err /\ tr = [] /\ w' = w) \/
  (exists req e,
      decoded = Ok req /\
      tr = [ Ev (dbPool_QueryRow_select_user (lEmail req)) (Err e) ] /\
      resp = invalid_credentials) \/
  (exists req user e,
      decoded = Ok req /\
      tr = [ Ev (dbPool_QueryRow_select_user (lEmail req)) (Ok user);
             Ev (bcrypt_CompareHashAndPassword (Password user) (lPassword req))
                (Some e) ] /\
      resp = invalid_credentials) \/
  (exists req user now e,
      decoded = Ok req /\
      tr = [ Ev (dbPool_QueryRow_select_user (lEmail req)) (Ok user);
             Ev (bcrypt_CompareHashAndPassword (Password user) (lPassword req))
                None;
             Ev time_Now now;
             Ev (token_SignedString (newToken g user now) (rsaKey g)) (Err e) ] /\
      resp = JSON http.StatusInternalServerError
               (GinH {[ "error" := JString "Failed to create token" ]})) \/
  (exists req user now tokenString,
      decoded = Ok req /\
      tr = [ Ev (dbPool_QueryRow_select_user (lEmail req)) (Ok user);
             Ev (bcrypt_CompareHashAndPassword (Password user) (lPassword req))
                None;
             Ev time_Now now;
             Ev (token_SignedString (newToken g user now) (rsaKey g))
                (Ok tokenString) ] /\
      resp = JSON http.StatusOK (GinH {[ "token" := JString tokenString ]})).
Proof.
  intros Hrun. unfold loginHandler in Hrun.
  destruct (ShouldBindJSON_loginRequest decoded) as [req|err] eqn:Hb.
  2:{ left. cbn in Hrun. injection Hrun as <- <- <-. by exists err. }
  apply bind_login_Ok in Hb as [-> _]. cbn in Hrun.
  destruct (h _ (dbPool_QueryRow_select_user (lEmail req)) w)
    as [[user|e] wq] eqn:Hq; cbn in Hrun.
  2:{ right; left. injection Hrun as <- _ <-. by exists req, e. }
  destruct (h _ (bcrypt_CompareHashAndPassword (Password user)
                   (lPassword req)) wq) as [[e|] wc] eqn:Hc; cbn in Hrun.
  { right; right; left. injection Hrun as <- _ <-. by exists req, user, e. }
  destruct (h _ time_Now wc) as [now wn] eqn:Hn; cbn in Hrun.
  destruct (h _ (token_SignedString (newToken g user now) (rsaKey g)) wn)
    as [[s|e] ws] eqn:Hs; cbn in Hrun; injection Hrun as <- _ <-.
  - do 4 right. by exists req, user, now, s.
  - do 3 right; left. by exists req, user, now, e.
Qed.

(** X2. Every run of the registration handler is one of three: a 400 with
    no call; a 500 after bcrypt failed, with no id drawn and no insert; or
    one insert of the drawn id, the email and bcrypt's output, answered 201
    when the store accepts it and 500 when it does not. *)
Theorem register_outcomes (decoded : result string RegisterRequest)
  (W : Type) (h : Answers W) (w w' : W) (resp : Response) (tr : list Event) :
  run h (registerHandler decoded) w = (resp, w', tr) ->
  (exists err,
      ShouldBindJSON_RegisterRequest decoded = Err err /\
      resp = bad_request err /\ tr = [] /\ w' = w) \/
  (exists req e,
      decoded = Ok req /\
      tr = [ Ev (bcrypt_GenerateFromPassword (Password_ req) Bcrypt.DefaultCost)
                (Err e) ] /\
      resp = JSON http.StatusInternalServerError
               (GinH {[ "error" := JString "Failed to hash password" ]})) \/
  (exists req hashedPassword id insertErr,
      decoded = Ok req /\
      tr = [ Ev (bcrypt_GenerateFromPassword (Password_ req) Bcrypt.DefaultCost)
                (Ok hashedPassword);
             Ev uuid_New id;
             Ev (dbPool_Exec_insert_user id (Email req) hashedPassword)
                insertErr ] /\
      resp = match insertErr with
             | Some _ =>
                 JSON http.StatusInternalServerError
                   (GinH {[ "error" := JString "Failed to register user" ]})
             | None =>
                 JSON http.StatusCreated
                   (GinH (<["id" := JUUID id]>
                            (<["email" := JString (Email req)]> ∅)))
             end).
Proof.
  intros Hrun. unfold registerHandler in Hrun.
  destruct (ShouldBindJSON_RegisterRequest decoded) as [req|err] eqn:Hb.
  2:{ left. cbn in Hrun. injection Hrun as <- <- <-. by exists err. }
  apply bind_register_Ok in Hb as [-> _]. cbn in Hrun.
  destruct (h _ (bcrypt_GenerateFromPassword (Password_ req)
                   Bcrypt.DefaultCost) w) as [[hp|e] wh] eqn:Hh;
    cbn in Hrun.
  2:{ right; left. injection Hrun as <- _ <-. by exists req, e. }
  destruct (h _ uuid_New wh) as [id wi] eqn:Hi; cbn in Hrun.
  destruct (h _ (dbPool_Exec_insert_user id (Email req) hp) wi)
    as [ie wx] eqn:Hx.
  right; right. exists req, hp, id, ie.
  destruct ie; cbn in Hrun; by injection Hrun as <- _ <-.
Qed.

End AuthMore.
Section AuthMore2.
Context `{Libraries}.

(** X7. [main] stops before generating a key when the database does not
    connect, and stops when key generation fails; otherwise exactly one
    2048-bit key was generated and the globals hold it, a one-element key set
    and the public half of that key. *)
Theorem main_outcomes (W : Type) (h : Answers W) (w w' : W)
  (r : result error Globals) (tr : list Event) :
  run h main w = (r, w', tr) ->
  (exists e, tr = [ Ev pgxpool_Connect (Some e) ] /\ r = Err e) \/
  (exists e,
      tr = [ Ev pgxpool_Connect None; Ev (rsa_GenerateKey 2048) (Err e) ] /\
      r = Err e) \/
  (exists key g,
      tr = [ Ev pgxpool_Connect None; Ev (rsa_GenerateKey 2048) (Ok key) ] /\
      r = Ok g /\ rsaKey g = key /\
      jwkKeySet g = [rsaKeyJWK g] /\
      jwk.material (rsaKeyJWK g) = jwk.RSAPublic (rsa.Public key)).
Proof.
  unfold main. cbn -[publish].
  destruct (h _ pgxpool_Connect w) as [[e|] wc]; cbn -[publish].
  { intros [= <- _ <-]. left. by exists e. }
  destruct (h _ (rsa_GenerateKey 2048) wc) as [[key|e] wk]; cbn -[publish].
  2:{ intros [= <- _ <-]. right; left. by exists e. }
  intros [= <- _ <-]. right; right.
  rewrite publish_Ok. eexists key, _. split; [done|]. split; [done|].
  cbn [rsaKey jwkKeySet rsaKeyJWK]. split; [done|]. split; [done|].
  apply published_key_material.
Qed.

(** X5. The header of an issued token has exactly the entries typ = JWT,
    alg = RS256 and kid; the alg is the one set on the published key, and the
    kid is the key's thumbprint, or the empty string when the thumbprint
    could not be computed. *)
Theorem token_header (key : rsa.PrivateKey) (g : Globals) (user : User)
  (now : time.Time) :
  publish key = Ok g ->
  jwt.Header (newToken g user now)
  = <["kid" := JString (jwk.KeyID (rsaKeyJWK g))]>
      (<["typ" := JString "JWT"]> (<["alg" := JString "RS256"]> ∅)) /\
  dom (jwt.Header (newToken g user now)) = {[ "typ"; "alg"; "kid" ]} /\
  jwk.attrs (rsaKeyJWK g) !! "alg" = Some "RS256" /\
  jwk.KeyID (rsaKeyJWK g)
  = match Thumbprint (rsa.Public key) with
    | Ok kid => kid
    | Err _ => ""
    end.
Proof.
  rewrite publish_Ok. intros [= <-]. cbn [rsaKeyJWK].
  split; [done|]. split.
  { unfold newToken. cbn [jwt.Header jwt.set_header jwt.NewWithClaims].
    rewrite !dom_insert_L, dom_empty_L. set_solver. }
  split.
  { unfold jwk.Key_Set. cbn [jwk.attrs]. apply lookup_insert_eq. }
  unfold jwk.KeyID. fold (published_key key).
  rewrite published_key_kid. by destruct (Thumbprint _).
Qed.

(** X6. The exp claim is a whole second: it is never later than 24 hours
    after the issuance instant, less than one second earlier, and later than
    the issuance second. *)
Theorem exp_within_last_second (g : Globals) (user : User) (now : time.Time) :
  exists exp,
    jwt.Claims (newToken g user now) !! "exp" = Some (JInt exp) /\
    exp * 1000000000 <= now + 24 * 3600 * 1000000000
      < (exp + 1) * 1000000000 /\
    time.Unix now < exp.
Proof.
  eexists. split.
  { unfold newToken. cbn [jwt.Claims jwt.set_header jwt.NewWithClaims].
    rewrite !lookup_insert_ne by done. apply lookup_insert_eq. }
  rewrite Unix_Add_24h. unfold time.Unix.
  pose proof (Z.div_mod now 1000000000 ltac:(lia)) as Hd.
  pose proof (Z.mod_pos_bound now 1000000000 ltac:(lia)) as Hm.
  lia.
Qed.

End AuthMore2.

(** ** The post service and the search service *)

Section SearchFacts.
Import search.

Lemma scan_spec (rows : list (result error string))
  (postIDs : option (list string)) :
  scan rows postIDs
  = (replicate (failed rows)
       (JSON 500 {[ "error" := VString "failed to scan result" ]}),
     match scanned rows with
     | [] => postIDs
     | ids => Some (default [] postIDs ++ ids)%list
     end).
Proof.
  revert postIDs. induction rows as [|[id|e] rest IH]; intros postIDs.
  - done.
  - cbn [scan failed]. rewrite IH. f_equal.
    unfold scanned. cbn [omap list_omap]. fold (scanned rest).
    destruct postIDs as [l|], (scanned rest) as [|i ids]; cbn;
      by rewrite <- ?app_assoc.
  - cbn [scan failed]. rewrite IH. done.
Qed.

(** X10. The search handler answers an empty query 400 without querying, a
    failed query 500, and otherwise writes one 500 for every row that did not
    scan followed by a final 200 carrying the ids that did scan, in order; the
    id list is nil when none did. *)
Theorem search_responses (query : string) (W : Type)
  (h : forall X, Eff X -> W -> X * W) (w w' : W)
  (written : list Response) (tr : list (Occurrence Eff)) :
  exec h (searchHandler query) w = (written, w', tr) ->
  (query = "" /\ tr = [] /\
   written
   = [JSON 400 {[ "error" := VString "Query parameter 'q' is required" ]}]) \/
  (query <> "" /\ exists e,
      tr = [ Occ (dbpool_Query_search query) (Err e) ] /\
      written = [JSON 500 {[ "error" := VString "search failed" ]}]) \/
  (query <> "" /\ exists rows,
      tr = [ Occ (dbpool_Query_search query) (Ok rows) ] /\
      written
      = (replicate (failed rows)
           (JSON 500 {[ "error" := VString "failed to scan result" ]})
         ++ [JSON 200
               {[ "post_ids" :=
                    VStrings match scanned rows with
                             | [] => None
                             | ids => Some ids
                             end ]}])%list).
Proof.
  unfold searchHandler.
  destruct (String.eqb query "") eqn:Hq.
  { apply String.eqb_eq in Hq. cbn. intros [= <- _ <-]. by left. }
  apply String.eqb_neq in Hq. cbn.
  destruct (h _ (dbpool_Query_search query) w) as [[rows|e] wq]; cbn.
  - rewrite scan_spec. cbn. intros [= <- _ <-].
    right; right. split; [done|]. exists rows. split; [done|].
    by destruct (scanned rows).
  - intros [= <- _ <-]. right; left. split; [done|]. by exists e.
Qed.

End SearchFacts.

Section Subscriber.
Import search.
Context `{Codec}.

(** X11. The subscriber logs and does nothing else for a message that does
    not decode; for one that does it makes exactly one upsert, of the
    event's id and content, and logs its outcome. *)
Theorem onPostUpdated_outcomes (data : string) (W : Type)
  (h : forall X, Eff X -> W -> X * W) (w w' : W)
  (tr : list (Occurrence Eff)) :
  exec h (onPostUpdated data) w = (tt, w', tr) ->
  (exists e,
      json_Unmarshal data = Err e /\
      tr = [ Occ (log_Printf "Invalid message format: %v" [AError e]) tt ]) \/
  (exists post,
      json_Unmarshal data = Ok post /\
      (tr = [ Occ (dbpool_Exec_upsert (ID post) (Content post)) None;
              Occ (log_Printf "Successfully indexed post %s" [AUUID (ID post)])
                  tt ] \/
       exists e,
         tr = [ Occ (dbpool_Exec_upsert (ID post) (Content post)) (Some e);
                Occ (log_Printf "Failed to upsert post %s: %v"
                       [AUUID (ID post); AError e]) tt ])).
Proof.
  unfold onPostUpdated, upsertPost.
  destruct (json_Unmarshal data) as [post|e]; cbn.
  - destruct (h _ (dbpool_Exec_upsert (ID post) (Content post)) w)
      as [[e|] wu]; cbn.
    + destruct (h _ (log_Printf _ _) wu) as [[] wl]. cbn.
      intros [= _ <-]. right. exists post. split; [done|]. right. by exists e.
    + destruct (h _ (log_Printf _ _) wu) as [[] wl]. cbn.
      intros [= _ <-]. right. exists post. split; [done|]. by left.
  - destruct (h _ (log_Printf _ _) w) as [[] wl]. cbn.
    intros [= _ <-]. left. by exists e.
Qed.

Lemma deliver_one (data : string) (index : gmap UUID string) :
  (exec indexing (onPostUpdated data) index).1.2
  = match json_Unmarshal data with
    | Ok post => <[ID post := Content post]> index
    | Err _ => index
    end.
Proof.
  unfold onPostUpdated, upsertPost.
  by destruct (json_Unmarshal data) as [post|e].
Qed.

(** X12. After the subscriber handled a sequence of messages against the
    index, an id maps to the content of the last message that decoded to an
    event with that id, and to what it mapped before when there is none. *)
Theorem deliver_last_write_wins (msgs : list string)
  (index : gmap UUID string) (id : UUID) :
  deliver msgs index !! id
  = match last (filter (fun post => ID post = id) (decoded msgs)) with
    | Some post => Some (Content post)
    | None => index !! id
    end.
Proof.
  revert index. induction msgs as [|data rest IH]; intros index; [done|].
  cbn [deliver]. rewrite IH, deliver_one.
  unfold decoded. cbn [omap list_omap]. fold (decoded rest).
  destruct (json_Unmarshal data) as [post|e]; [|done].
  rewrite filter_cons.
  destruct (decide (ID post = id)) as [Heq|Hne].
  - destruct (filter _ (decoded rest)) as [|p ps] eqn:Hf.
    + cbn. rewrite <- Heq. apply lookup_insert_eq.
    + rewrite !last_cons. by destruct (last ps).
  - destruct (last (filter _ (decoded rest))); [done|].
    by rewrite lookup_insert_ne.
Qed.

End Subscriber.

Section SearchStartup.
Import search.

Theorem setupSchema_outcomes (W : Type)
  (h : forall X, Eff X -> W -> X * W) (w w' : W)
  (r : result string unit) (tr : list (Occurrence Eff)) :
  exec h setupSchema w = (r, w', tr) ->
  (exists e,
      tr = [ Occ (dbpool_Exec_schema CreateTable) (Some e) ] /\
      r = Err "Failed to create table") \/
  (exists e,
      tr = [ Occ (dbpool_Exec_schema CreateTable) None;
             Occ (dbpool_Exec_schema CreateIndex) (Some e) ] /\
      r = Err "Failed to create GIN index") \/
  (exists e,
      tr = [ Occ (dbpool_Exec_schema CreateTable) None;
             Occ (dbpool_Exec_schema CreateIndex) None;
             Occ (dbpool_Exec_schema CreateTrigger) (Some e) ] /\
      r = Err "Failed to create trigger") \/
  (tr = [ Occ (dbpool_Exec_schema CreateTable) None;
          Occ (dbpool_Exec_schema CreateIndex) None;
          Occ (dbpool_Exec_schema CreateTrigger) None;
          Occ (log_Println "Schema and GIN index are ready.") tt ] /\
   r = Ok tt).
Proof.
  unfold setupSchema. cbn.
  destruct (h _ (dbpool_Exec_schema CreateTable) w) as [[e|] w1]; cbn.
  { intros [= <- _ <-]. left. by exists e. }
  destruct (h _ (dbpool_Exec_schema CreateIndex) w1) as [[e|] w2]; cbn.
  { intros [= <- _ <-]. right; left. by exists e. }
  destruct (h _ (dbpool_Exec_schema CreateTrigger) w2) as [[e|] w3]; cbn.
  { intros [= <- _ <-]. right; right; left. by exists e. }
  destruct (h _ (log_Println _) w3) as [[] w4]. cbn.
  intros [= <- _ <-]. by do 3 right.
Qed.

Lemma exec_bind {E : Type -> Type} {W A B : Type}
  (h : forall X, E X -> W -> X * W) (p : Proc E A)
  (f : A -> Proc E B) (w : W) :
  exec h (Proc_bind p f) w
  = let '(a, w1, tr1) := exec h p w in
    let '(b, w2, tr2) := exec h (f a) w1 in
    (b, w2, (tr1 ++ tr2)%list).
Proof.
  revert w. induction p as [a|X e k IH]; intros w; cbn.
  - by destruct (exec h (f a) w) as [[b w2] tr2].
  - destruct (h X e w) as [x w1]. rewrite IH.
    destruct (exec h (k x) w1) as [[a w2] tr1].
    by destruct (exec h (f a) w2) as [[b w3] tr2].
Qed.

(** X13. When the search service's [main] reaches the router, DATABASE_URL
    was non-empty, the database connected, the three schema statements ran in
    order and succeeded, NATS was connected at NATS_URL or at
    nats://localhost:4222 when that is empty, and post.updated was
    subscribed. *)
Theorem search_main_started (W : Type)
  (h : forall X, Eff X -> W -> X * W) (w w' : W)
  (tr : list (Occurrence Eff)) :
  exec h main w = (Ok tt, w', tr) ->
  exists databaseURL natsURL,
    databaseURL <> "" /\
    tr = [ Occ (os_Getenv "DATABASE_URL") databaseURL;
           Occ (pgxpool_Connect databaseURL) None;
           Occ (dbpool_Exec_schema CreateTable) None;
           Occ (dbpool_Exec_schema CreateIndex) None;
           Occ (dbpool_Exec_schema CreateTrigger) None;
           Occ (log_Println "Schema and GIN index are ready.") tt;
           Occ (os_Getenv "NATS_URL") natsURL;
           Occ (nats_Connect (if String.eqb natsURL ""
                              then "nats://localhost:4222" else natsURL)) None;
           Occ (nc_Subscribe "post.updated") tt ].
Proof.
  unfold main.
  cbn -[setupSchema].
  destruct (h _ (os_Getenv "DATABASE_URL") w) as [databaseURL w1].
  destruct (String.eqb databaseURL "") eqn:Hdb; cbn -[setupSchema];
    [by intros [=]|].
  apply String.eqb_neq in Hdb.
  destruct (h _ (pgxpool_Connect databaseURL) w1) as [[e|] w2];
    cbn -[setupSchema]; [by intros [=]|].
  unfold mbind, Proc_mbind. rewrite exec_bind.
  destruct (exec h setupSchema w2) as [[r w3] trs] eqn:Hs.
  apply setupSchema_outcomes in Hs
    as [(e & -> & ->) | [(e & -> & ->) | [(e & -> & ->) | [-> ->]]]];
    cbn; try (by intros [=]).
  destruct (h _ (os_Getenv "NATS_URL") w3) as [natsURL w4]. cbn.
  destruct (h _ (nats_Connect _) w4) as [[e|] w5]; cbn; [by intros [=]|].
  destruct (h _ (nc_Subscribe _) w5) as [[] w6]. cbn.
  intros [= _ <-]. by exists databaseURL, natsURL.
Qed.

End SearchStartup.

Section PostFacts.
Import post.
Context `{Libraries} `{Codec}.

Lemma post_bind_Ok (decoded : result string CreatePostRequest)
  (req : CreatePostRequest) :
  ShouldBindJSON decoded = Ok req ->
  decoded = Ok req /\ rTitle req <> "" /\ rContent req <> "".
Proof.
  unfold ShouldBindJSON. destruct decoded as [r|msg]; [|done].
  unfold validate, validate_field. cbn.
  destruct (String.eqb (rTitle r) "") eqn:Ht; [done|].
  destruct (String.eqb (rContent r) "") eqn:Hc; [done|].
  cbn. intros [= ->]. by apply String.eqb_neq in Ht, Hc.
Qed.

(** X8. The post handler answers 400 with no call when the body does not
    bind or the X-Krakend-Sub header is not a UUID; otherwise it inserts one
    post with a fresh id and the header's user id.  A refused insert gives
    500 and nothing is published; an event that does not marshal gives 500
    after the insert; otherwise the event (the post's id as a string, title,
    content) is published on post.updated and the answer is 201 with the
    post, whether or not the publish succeeded. *)
Theorem createPostHandler_outcomes
  (decoded : result string CreatePostRequest) (sub : string)
  (W : Type) (h : forall X, Eff X -> W -> X * W) (w w' : W)
  (resp : Response) (tr : list (Occurrence Eff)) :
  exec h (createPostHandler decoded sub) w = (resp, w', tr) ->
  (exists err,
      ShouldBindJSON decoded = Err err /\ tr = [] /\
      resp = JSON http.StatusBadRequest
               (GinH {[ "error" := JString (Error err) ]})) \/
  (exists req e,
      decoded = Ok req /\ uuid_Parse sub = Err e /\ tr = [] /\
      resp = JSON http.StatusBadRequest
               (GinH {[ "error" := JString "Invalid user ID" ]})) \/
  (exists req userID id,
      decoded = Ok req /\ rTitle req <> "" /\ rContent req <> "" /\
      uuid_Parse sub = Ok userID /\
      let newPost := mk_Post id userID (rTitle req) (rContent req) in
      let event :=
        mk_PostEvent (uuid_String id) (rTitle req) (rContent req) in
      let inserted :=
        [ Occ uuid_New id;
          Occ (dbPool_Exec_insert_post id userID (rTitle req) (rContent req))
              None;
          Occ (log_Printf "Post created: %v" [APost newPost]) tt ] in
      (exists e,
          tr = [ Occ uuid_New id;
                 Occ (dbPool_Exec_insert_post id userID (rTitle req)
                        (rContent req)) (Some e) ] /\
          resp = JSON http.StatusInternalServerError
                   (GinH {[ "error" := JString "Failed to create post" ]})) \/
      (exists e,
          json_Marshal event = Err e /\ tr = inserted /\
          resp = JSON http.StatusInternalServerError
                   (GinH {[ "error" := JString "Failed to marshal event" ]})) \/
      (exists eventBytes publishErr,
          json_Marshal event = Ok eventBytes /\
          tr = (inserted
                ++ [ Occ (nc_Publish "post.updated" eventBytes) publishErr ]
                ++ match publishErr with
                   | Some e =>
                       [ Occ (log_Printf "Failed to publish event: %v"
                                [AError e]) tt ]
                   | None => []
                   end
                ++ [ Occ (log_Printf "Post created event published: %v"
                            [AEvent event]) tt ])%list /\
          resp = JSON http.StatusCreated (ThePost newPost))).
Proof.
  unfold createPostHandler.
  destruct (ShouldBindJSON decoded) as [req|err] eqn:Hb.
  2:{ cbn. intros [= <- _ <-]. left. by exists err. }
  apply post_bind_Ok in Hb as (-> & Ht & Hc).
  destruct (uuid_Parse sub) as [userID|e] eqn:Hp.
  2:{ cbn. intros [= <- _ <-]. right; left. by exists req, e. }
  cbn.
  destruct (h _ uuid_New w) as [id w1]. cbn.
  destruct (h _ (dbPool_Exec_insert_post id userID (rTitle req)
                   (rContent req)) w1) as [[e|] w2]; cbn.
  { intros [= <- _ <-]. right; right. exists req, userID, id.
    repeat (split; [done|]). left. by exists e. }
  destruct (h _ (log_Printf "Post created: %v" _) w2) as [[] w3]. cbn.
  destruct (json_Marshal _) as [eventBytes|e] eqn:Hm; cbn.
  2:{ intros [= <- _ <-]. right; right. exists req, userID, id.
      repeat (split; [done|]). right; left. by exists e. }
  destruct (h _ (nc_Publish "post.updated" eventBytes) w3)
    as [[e|] w4]; cbn.
  - destruct (h _ (log_Printf "Failed to publish event: %v" _) w4)
      as [[] w5]. cbn.
    destruct (h _ (log_Printf "Post created event published: %v" _) w5)
      as [[] w6]. cbn.
    intros [= <- _ <-]. right; right. exists req, userID, id.
    repeat (split; [done|]). right; right. by exists eventBytes, (Some e).
  - destruct (h _ (log_Printf "Post created event published: %v" _) w4)
      as [[] w5]. cbn.
    intros [= <- _ <-]. right; right. exists req, userID, id.
    repeat (split; [done|]). right; right. by exists eventBytes, None.
Qed.

(** X9. When the post service's [main] reaches the router, DATABASE_URL
    and NATS_URL were both non-empty and both connections succeeded. *)
Theorem post_main_started (W : Type)
  (h : forall X, Eff X -> W -> X * W) (w w' : W)
  (tr : list (Occurrence Eff)) :
  exec h main w = (Ok tt, w', tr) ->
  exists url1 url2 natsURL,
    url1 <> "" /\ natsURL <> "" /\
    tr = [ Occ (os_Getenv "DATABASE_URL") url1;
           Occ (os_Getenv "DATABASE_URL") url2;
           Occ (pgxpool_Connect url2) None;
           Occ (log_Println "Connected to database") tt;
           Occ (os_Getenv "NATS_URL") natsURL;
           Occ (nats_Connect natsURL) None;
           Occ (log_Println "Connected to NATS") tt ].
Proof.
  unfold main. cbn.
  destruct (h _ (os_Getenv "DATABASE_URL") w) as [url1 w1].
  destruct (String.eqb url1 "") eqn:Hu; cbn; [by intros [=]|].
  apply String.eqb_neq in Hu.
  destruct (h _ (os_Getenv "DATABASE_URL") w1) as [url2 w2]. cbn.
  destruct (h _ (pgxpool_Connect url2) w2) as [[e|] w3]; cbn;
    [by intros [=]|].
  destruct (h _ (log_Println "Connected to database") w3) as [[] w4]. cbn.
  destruct (h _ (os_Getenv "NATS_URL") w4) as [natsURL w5].
  destruct (String.eqb natsURL "") eqn:Hn; cbn; [by intros [=]|].
  apply String.eqb_neq in Hn.
  destruct (h _ (nats_Connect natsURL) w5) as [[e|] w6]; cbn;
    [by intros [=]|].
  destruct (h _ (log_Println "Connected to NATS") w6) as [[] w7]. cbn.
  intros [= _ <-]. by exists url1, url2, natsURL.
Qed.

End PostFacts.

(** ** These properties on the example instances *)

Lemma login_outcomes_witness :
  exists req user now tokenString,
    example_login = Ok req /\
    (run (@answers example_crypto)
       (@loginHandler example_libraries example_globals example_login)
       registered_world).2
    = [ Ev (dbPool_QueryRow_select_user (lEmail req)) (Ok user);
        Ev (bcrypt_CompareHashAndPassword (Password user) (lPassword req))
           None;
        Ev time_Now now;
        Ev (token_SignedString (newToken example_globals user now)
              (rsaKey example_globals)) (Ok tokenString) ] /\
    (run (@answers example_crypto)
       (@loginHandler example_libraries example_globals example_login)
       registered_world).1.1
    = JSON http.StatusOK (GinH {[ "token" := JString tokenString ]}).
Proof.
  destruct (@login_outcomes example_libraries example_globals example_login
              World (@answers example_crypto) registered_world
              (run (@answers example_crypto)
                 (@loginHandler example_libraries example_globals
                    example_login) registered_world).1.2
              (run (@answers example_crypto)
                 (@loginHandler example_libraries example_globals
                    example_login) registered_world).1.1
              (run (@answers example_crypto)
                 (@loginHandler example_libraries example_globals
                    example_login) registered_world).2)
    as [(err & _ & Hr & _) | [(req & e & _ & _ & Hr)
        | [(req & user & e & _ & _ & Hr)
           | [(req & user & now & e & _ & _ & Hr) | Hok]]]].
  - by destruct (run _ _ _) as [[? ?] ?].
  - vm_compute in Hr. discriminate Hr.
  - vm_compute in Hr. discriminate Hr.
  - vm_compute in Hr. discriminate Hr.
  - vm_compute in Hr. discriminate Hr.
  - exact Hok.
Defined.

Lemma register_outcomes_witness :
  exists req hashedPassword id insertErr,
    example_register = Ok req /\
    (run (@answers example_crypto)
       (@registerHandler example_libraries example_register) registered_world).2
    = [ Ev (bcrypt_GenerateFromPassword (Password_ req) Bcrypt.DefaultCost)
           (Ok hashedPassword);
        Ev uuid_New id;
        Ev (dbPool_Exec_insert_user id (Email req) hashedPassword) insertErr ] /\
    (run (@answers example_crypto)
       (@registerHandler example_libraries example_register)
       registered_world).1.1
    = match insertErr with
      | Some _ =>
          JSON http.StatusInternalServerError
            (GinH {[ "error" := JString "Failed to register user" ]})
      | None =>
          JSON http.StatusCreated
            (GinH (<["id" := JUUID id]> (<["email" := JString (Email req)]> ∅)))
      end.
Proof.
  destruct (@register_outcomes example_libraries example_register
              World (@answers example_crypto) registered_world
              (run (@answers example_crypto)
                 (@registerHandler example_libraries example_register)
                 registered_world).1.2
              (run (@answers example_crypto)
                 (@registerHandler example_libraries example_register)
                 registered_world).1.1
              (run (@answers example_crypto)
                 (@registerHandler example_libraries example_register)
                 registered_world).2)
    as [(err & _ & Hr & _) | [(req & e & _ & _ & Hr) | Hok]].
  - by destruct (run _ _ _) as [[? ?] ?].
  - vm_compute in Hr. discriminate Hr.
  - vm_compute in Hr. discriminate Hr.
  - exact Hok.
Defined.

Lemma main_outcomes_witness :
  exists key g,
    (run (@answers example_crypto) (@main example_libraries) example_world).2
    = [ Ev pgxpool_Connect None; Ev (rsa_GenerateKey 2048) (Ok key) ] /\
    (run (@answers example_crypto) (@main example_libraries) example_world).1.1
    = Ok g /\ rsaKey g = key /\
    jwkKeySet g = [rsaKeyJWK g] /\
    jwk.material (rsaKeyJWK g) = jwk.RSAPublic (rsa.Public key).
Proof.
  destruct (@main_outcomes example_libraries World (@answers example_crypto)
              example_world
              (run (@answers example_crypto) (@main example_libraries)
                 example_world).1.2
              (run (@answers example_crypto) (@main example_libraries)
                 example_world).1.1
              (run (@answers example_crypto) (@main example_libraries)
                 example_world).2)
    as [(e & _ & Hr) | [(e & _ & Hr) | Hok]].
  - by destruct (run _ _ _) as [[? ?] ?].
  - vm_compute in Hr. discriminate Hr.
  - vm_compute in Hr. discriminate Hr.
  - exact Hok.
Defined.

Lemma token_header_witness :
  jwt.Header (newToken example_globals example_user 1700000000123456789)
  = <["kid" := JString (jwk.KeyID (rsaKeyJWK example_globals))]>
      (<["typ" := JString "JWT"]> (<["alg" := JString "RS256"]> ∅)) /\
  dom (jwt.Header (newToken example_globals example_user 1700000000123456789))
  = {[ "typ"; "alg"; "kid" ]} /\
  jwk.attrs (rsaKeyJWK example_globals) !! "alg" = Some "RS256" /\
  jwk.KeyID (rsaKeyJWK example_globals)
  = match @Thumbprint example_libraries (rsa.Public example_key) with
    | Ok kid => kid
    | Err _ => ""
    end.
Proof.
  apply (@token_header example_libraries example_key example_globals
           example_user 1700000000123456789).
  vm_compute. reflexivity.
Defined.

Lemma registered_password_authenticates_witness :
  exists (w1 : World) (tr : list Event),
    run (@answers example_crypto)
      (@registerHandler example_libraries example_register) example_world
    = (JSON http.StatusCreated
         (GinH (<["id" := JUUID (next_id example_world)]>
                  (<["email" := JString "a@example.com"]> ∅))), w1, tr) /\
    forall tokenString,
      @RS256 example_crypto
        (newToken example_globals
           (mk_User (next_id example_world) "a@example.com"
              (Bcrypt.render
                 (Bcrypt.mk_hashed Bcrypt.DefaultCost example_salt
                    (@bcrypt_digest example_crypto Bcrypt.DefaultCost
                       example_salt "longpassword1"))))
           (clock example_world)) (rsaKey example_globals) = Ok tokenString ->
      (run (@answers example_crypto)
         (@loginHandler example_libraries example_globals
            (Ok (mk_loginRequest "a@example.com" "longpassword1")))
         w1).1.1
      = JSON http.StatusOK (GinH {[ "token" := JString tokenString ]}).
Proof.
  apply (@registered_password_authenticates example_libraries example_crypto
           example_globals (mk_RegisterRequest "a@example.com" "longpassword1")
           example_world example_salt [other_salt]);
    reflexivity.
Defined.

Lemma search_responses_witness :
  "go" <> "" /\ exists rows,
    (exec search.indexing (search.searchHandler "go") ∅).2
    = [ Occ (search.dbpool_Query_search "go") (Ok rows) ] /\
    (exec search.indexing (search.searchHandler "go") ∅).1.1
    = (replicate (search.failed rows)
         (search.JSON 500
            {[ "error" := search.VString "failed to scan result" ]})
       ++ [search.JSON 200
             {[ "post_ids" :=
                  search.VStrings match search.scanned rows with
                                  | [] => None
                                  | ids => Some ids
                                  end ]}])%list.
Proof.
  destruct (search_responses "go" (gmap UUID string) search.indexing ∅
              (exec search.indexing (search.searchHandler "go") ∅).1.2
              (exec search.indexing (search.searchHandler "go") ∅).1.1
              (exec search.indexing (search.searchHandler "go") ∅).2)
    as [(Hq & _) | [(_ & e & _ & Hw) | Hok]].
  - by destruct (exec _ _ _) as [[? ?] ?].
  - discriminate Hq.
  - vm_compute in Hw. discriminate Hw.
  - exact Hok.
Defined.

Lemma onPostUpdated_outcomes_witness :
  exists post,
    @search.json_Unmarshal search.example_codec "hello" = Ok post /\
    ((exec search.indexing (@search.onPostUpdated search.example_codec "hello")
        ∅).2
     = [ Occ (search.dbpool_Exec_upsert (search.ID post) (search.Content post))
             None;
         Occ (search.log_Printf "Successfully indexed post %s"
                [search.AUUID (search.ID post)]) tt ] \/
     exists e,
       (exec search.indexing
          (@search.onPostUpdated search.example_codec "hello") ∅).2
       = [ Occ (search.dbpool_Exec_upsert (search.ID post)
                  (search.Content post)) (Some e);
           Occ (search.log_Printf "Failed to upsert post %s: %v"
                  [search.AUUID (search.ID post); search.AError e]) tt ]).
Proof.
  destruct (@onPostUpdated_outcomes search.example_codec "hello"
              (gmap UUID string) search.indexing ∅
              (exec search.indexing
                 (@search.onPostUpdated search.example_codec "hello") ∅).1.2
              (exec search.indexing
                 (@search.onPostUpdated search.example_codec "hello") ∅).2)
    as [(e & He & _) | Hok].
  - by destruct (exec _ _ _) as [[[] ?] ?].
  - vm_compute in He. discriminate He.
  - exact Hok.
Defined.

Lemma setupSchema_outcomes_witness :
  (exec search.indexing search.setupSchema ∅).2
  = [ Occ (search.dbpool_Exec_schema search.CreateTable) None;
      Occ (search.dbpool_Exec_schema search.CreateIndex) None;
      Occ (search.dbpool_Exec_schema search.CreateTrigger) None;
      Occ (search.log_Println "Schema and GIN index are ready.") tt ] /\
  (exec search.indexing search.setupSchema ∅).1.1 = Ok tt.
Proof.
  destruct (setupSchema_outcomes (gmap UUID string) search.indexing ∅
              (exec search.indexing search.setupSchema ∅).1.2
              (exec search.indexing search.setupSchema ∅).1.1
              (exec search.indexing search.setupSchema ∅).2)
    as [(e & _ & Hr) | [(e & _ & Hr) | [(e & _ & Hr) | Hok]]].
  - by destruct (exec _ _ _) as [[? ?] ?].
  - vm_compute in Hr. discriminate Hr.
  - vm_compute in Hr. discriminate Hr.
  - vm_compute in Hr. discriminate Hr.
  - exact Hok.
Defined.

Lemma search_main_started_witness :
  exists databaseURL natsURL,
    databaseURL <> "" /\
    (exec search.indexing search.main ∅).2
    = [ Occ (search.os_Getenv "DATABASE_URL") databaseURL;
        Occ (search.pgxpool_Connect databaseURL) None;
        Occ (search.dbpool_Exec_schema search.CreateTable) None;
        Occ (search.dbpool_Exec_schema search.CreateIndex) None;
        Occ (search.dbpool_Exec_schema search.CreateTrigger) None;
        Occ (search.log_Println "Schema and GIN index are ready.") tt;
        Occ (search.os_Getenv "NATS_URL") natsURL;
        Occ (search.nats_Connect (if String.eqb natsURL ""
                                  then "nats://localhost:4222" else natsURL))
            None;
        Occ (search.nc_Subscribe "post.updated") tt ].
Proof.
  apply (search_main_started (gmap UUID string) search.indexing ∅
           (exec search.indexing search.main ∅).1.2
           (exec search.indexing search.main ∅).2).
  vm_compute. reflexivity.
Defined.

Lemma createPostHandler_outcomes_witness :
  exists req userID id,
    post.example_request = Ok req /\
    post.rTitle req <> "" /\ post.rContent req <> "" /\
    @post.uuid_Parse post.example_codec "user-1" = Ok userID /\
    exists eventBytes publishErr,
      @post.json_Marshal post.example_codec
        (post.mk_PostEvent (@post.uuid_String post.example_codec id)
           (post.rTitle req) (post.rContent req)) = Ok eventBytes /\
      (exec post.example_answers
         (@post.createPostHandler example_libraries post.example_codec
            post.example_request "user-1") []).2 !! 3%nat
      = Some (Occ (post.nc_Publish "post.updated" eventBytes) publishErr) /\
      publishErr <> None /\
      (exec post.example_answers
         (@post.createPostHandler example_libraries post.example_codec
            post.example_request "user-1") []).1.1
      = post.JSON http.StatusCreated
          (post.ThePost
             (post.mk_Post id userID (post.rTitle req) (post.rContent req))).
Proof.
  destruct (@createPostHandler_outcomes example_libraries post.example_codec
              post.example_request "user-1" (list post.Post)
              post.example_answers []
              (exec post.example_answers
                 (@post.createPostHandler example_libraries post.example_codec
                    post.example_request "user-1") []).1.2
              (exec post.example_answers
                 (@post.createPostHandler example_libraries post.example_codec
                    post.example_request "user-1") []).1.1
              (exec post.example_answers
                 (@post.createPostHandler example_libraries post.example_codec
                    post.example_request "user-1") []).2)
    as [(err & _ & _ & Hr) | [(req & e & _ & _ & _ & Hr)
        | (req & userID & id & Hd & Ht & Hc & Hp & Hcases)]].
  - by destruct (exec _ _ _) as [[? ?] ?].
  - vm_compute in Hr. discriminate Hr.
  - vm_compute in Hr. discriminate Hr.
  - exists req, userID, id. repeat (split; [done|]).
    destruct Hcases as [(e & _ & Hr) | [(e & _ & _ & Hr)
                        | (bytes & perr & Hm & Htr & Hr)]].
    + vm_compute in Hr. discriminate Hr.
    + vm_compute in Hr. discriminate Hr.
    + exists bytes, perr. split; [done|]. rewrite Htr. split; [done|].
      split; [|done].
      intros ->. apply (f_equal length) in Htr. vm_compute in Htr.
      discriminate Htr.
Defined.

Lemma post_main_started_witness :
  exists url1 url2 natsURL,
    url1 <> "" /\ natsURL <> "" /\
    (exec post.example_answers post.main []).2
    = [ Occ (post.os_Getenv "DATABASE_URL") url1;
        Occ (post.os_Getenv "DATABASE_URL") url2;
        Occ (post.pgxpool_Connect url2) None;
        Occ (post.log_Println "Connected to database") tt;
        Occ (post.os_Getenv "NATS_URL") natsURL;
        Occ (post.nats_Connect natsURL) None;
        Occ (post.log_Println "Connected to NATS") tt ].
Proof.
  apply (post_main_started (list post.Post) post.example_answers []
           (exec post.example_answers post.main []).1.2
           (exec post.example_answers post.main []).2).
  vm_compute. reflexivity.
Defined.
